(** * openSenseMap-API: the measurement controllers of lib/controllers/boxesController.js

    A shallow embedding of the export handlers [getData] and [getDataMulti],
    of the ingestion handlers [postNewMeasurement] and [postNewMeasurements]
    and of the geojson view of [findBox], followed by the properties that the
    specification states about them.

    JavaScript objects are finite maps from property names to values, the
    handlers are functions from a request, the current time and the stored
    collections to the ordered list of effects they perform (storage reads,
    response headers, written chunks, calls of [next]). *)

From Stdlib Require Import ZArith QArith_base Ascii String List Bool Lia.
From stdpp Require Import base option list gmap strings fin_maps.
Import ListNotations.

Local Open Scope string_scope.
Local Open Scope Z_scope.

(** ** JavaScript values *)

Module JS.

(** The values that flow through the controllers.  A number is the rational
    it denotes, or NaN; a [Date] is its epoch time in milliseconds; an
    [ObjectId] is identified with its hexadecimal text. *)
Inductive value : Type :=
  | VUndefined
  | VNull
  | VBool (b : bool)
  | VNum (q : Q)
  | VNaN
  | VStr (s : string)
  | VDate (ms : Z)
  | VObjectId (hex : string).

(** Exceptions thrown by the runtime or rejections of a collaborator. *)
Inductive exn : Type :=
  | TypeError (detail : string)
  | RangeError (detail : string)
  | Rejected (detail : string).

(** ToBoolean: what [if (x)] and [!x] test. *)
Definition truthy (v : value) : bool :=
  match v with
  | VUndefined | VNull | VNaN => false
  | VBool b => b
  | VNum q => negb (Qnum q =? 0)
  | VStr s => negb (String.eqb s "")
  | VDate _ | VObjectId _ => true
  end.

(** [typeof v === 'number'] with a finite value. *)
Definition is_number (v : value) : bool :=
  match v with
  | VNum _ => true
  | _ => false
  end.

(** A plain object, by its own properties. *)
Abbreviation obj := (gmap string value).

(** [o[k]]: a missing property reads as [undefined]. *)
Definition get (o : obj) (k : string) : value := default VUndefined (o !! k).

(** [a[i]] on an array. *)
Definition index (a : list value) (i : nat) : value := default VUndefined (a !! i).

(** White space removed by [String.prototype.trim] (the ASCII part of it). *)
Definition is_space (c : ascii) : bool :=
  let n := nat_of_ascii c in
  ((9 <=? n) && (n <=? 13))%nat || (n =? 32)%nat.

Fixpoint trim_left (s : string) : string :=
  match s with
  | String c r => if is_space c then trim_left r else s
  | EmptyString => EmptyString
  end.

Fixpoint trim_right (s : string) : string :=
  match s with
  | EmptyString => EmptyString
  | String c r =>
      match trim_right r with
      | EmptyString => if is_space c then EmptyString else String c EmptyString
      | r' => String c r'
      end
  end.

Definition trim (s : string) : string := trim_right (trim_left s).

(** [s.split(sep)] for a one-character separator: the empty string splits
    into one empty piece. *)
Fixpoint split (sep : ascii) (s : string) : list string :=
  match s with
  | EmptyString => [EmptyString]
  | String c r =>
      if Ascii.eqb c sep then EmptyString :: split sep r
      else match split sep r with
           | h :: t => String c h :: t
           | [] => [String c EmptyString]
           end
  end.

(** [a.includes(x)] on an array of strings. *)
Definition includes (a : list string) (x : string) : bool :=
  existsb (String.eqb x) a.

(** [a.some(p)]. *)
Definition some {A} (p : A -> bool) (a : list A) : bool := existsb p a.

Definition lower_ascii (c : ascii) : ascii :=
  let n := nat_of_ascii c in
  if ((65 <=? n) && (n <=? 90))%nat then ascii_of_nat (n + 32) else c.

(** [s.toLowerCase()] on ASCII text. *)
Fixpoint toLowerCase (s : string) : string :=
  match s with
  | EmptyString => EmptyString
  | String c r => String (lower_ascii c) (toLowerCase r)
  end.

End JS.

Import JS.

(** ** Errors, effects and the stored collections *)

(** The restify error classes the controllers hand to [next]; [TimeError] is
    the failure of the time-window helpers. *)
Inductive error_kind : Type :=
  | InvalidArgumentError
  | UnprocessableEntityError
  | BadRequestError
  | InternalServerError
  | NotFoundError
  | UnsupportedMediaTypeError
  | TimeError.

(** What an error carries: a literal message, or text derived from a caught
    exception ([err.message], [JSON.stringify(err.message)],
    [JSON.stringify(err.errors)], [`${err.message}. ${err}`]). *)
Inductive payload : Type :=
  | Msg (s : string)
  | MessageOf (x : exn)
  | JsonMessageOf (x : exn)
  | JsonErrorsOf (x : exn)
  | MessageAndErrorOf (x : exn).

Record error : Type := Error { kind : error_kind; detail : payload }.

(** A box document as [Box.find(...).lean()] returns it. *)
Record location : Type := Location { coordinates : list value }.

Record sensor : Type := Sensor {
  sensor_id : string;          (* _id, an ObjectId *)
  attrs : obj                  (* title, unit, sensorType, icon, ... *)
}.

Record box : Type := Box {
  box_id : string;             (* _id, an ObjectId *)
  box_name : value;
  box_exposure : value;
  loc : list location;
  sensors : list sensor
}.

(** A stored measurement document. *)
Record measurement : Type := Measurement {
  m_sensor_id : string;        (* sensor_id, an ObjectId *)
  m_createdAt : Z;             (* createdAt, a Date *)
  m_value : value
}.

(** Query documents. *)
Inductive cmp_op : Type := Op_gt | Op_gte | Op_lt | Op_lte.

Inductive id_filter : Type :=
  | IdEq (id : string)
  | IdIn (ids : list string).

Record measurement_query : Type := MeasurementQuery {
  mq_sensor_id : id_filter;
  mq_createdAt : list (cmp_op * Z)
}.

Inductive selection : Type :=
  | ByIds (ids : list string)                 (* _id: { $in: ids } *)
  | ByPolygon (ring : list (value * value)).  (* loc.geometry: { $geoWithin: ... } *)

Record box_query : Type := BoxQuery {
  bq_title : string;                (* 'sensors.title' *)
  bq_selection : selection;
  bq_exposure : option string       (* 'exposure' *)
}.

(** The effects of a handler, in the order it performs them. *)
Inductive event : Type :=
  | Next (e : error)
  | Uncaught (x : exn)
  | Header (name content : string)
  | BoxFind (q : box_query)
  | MeasurementFind (q : measurement_query) (limit : option nat)
  | Write (chunk : string)
  | BoxFindOne (id : option string)
  | SaveMeasurement (b : box) (m : option obj)
  | SaveMeasurementsArray (b : box) (ms : list obj)
  | Send (code : nat) (body : string).

(** Reading or writing the stored collections. *)
Definition is_storage (ev : event) : bool :=
  match ev with
  | BoxFind _ | MeasurementFind _ _ | BoxFindOne _
  | SaveMeasurement _ _ | SaveMeasurementsArray _ _ => true
  | _ => false
  end.

(** Opening the output: a response header or a written chunk. *)
Definition is_output (ev : event) : bool :=
  match ev with
  | Header _ _ | Write _ | Send _ _ => true
  | _ => false
  end.

Definition is_next (ev : event) : bool :=
  match ev with Next _ => true | _ => false end.

(** The request as the handlers read it. *)
Record request : Type := Request {
  params : gmap string string;    (* req.params *)
  boxId : option string;          (* req.boxId *)
  bbox : option (list value)      (* req.bbox *)
}.

(** ** Collaborators of the export handlers

    Functions of the runtime, of lib/utils.js, of lib/requestUtils.js and of
    the document store that the controllers call and whose code is outside
    the controllers' file. *)
Record export_env : Type := ExportEnv {
  num_to_string : Q -> string;         (* ToString of a number *)
  date_to_string : Z -> string;        (* ToString of a Date *)
  Date_parse : value -> option Z;      (* new Date(v) for v that is not a Date; None: invalid *)
  toISOString : Z -> string;           (* Date.prototype.toISOString of a valid date *)
  parse_instant : string -> option Z;  (* the timestamp parser applied to a parameter *)
  timestampISO : value -> value;       (* utils.parseTimestamp(v).toISOString() *)
  getDelimiter : request -> string;    (* requestUtils.getDelimiter *)
  getRequestedFormat : request -> list string -> string -> option string;
  Box_find : box_query -> exn + list box;   (* Box.find(q).lean().exec() *)
  csv_field : string -> value -> string;    (* one cell as csv-stringify prints it *)
  JSON_stringify : obj -> string
}.

(** ToString, as used for a property key. *)
Definition ToString (E : export_env) (v : value) : string :=
  match v with
  | VUndefined => "undefined"
  | VNull => "null"
  | VBool true => "true"
  | VBool false => "false"
  | VNum q => num_to_string E q
  | VNaN => "NaN"
  | VStr s => s
  | VDate t => date_to_string E t
  | VObjectId h => h
  end.

(** *** The measurement collection *)

Definition cmp_holds (t : Z) (c : cmp_op * Z) : bool :=
  match c with
  | (Op_gt, b) => b <? t
  | (Op_gte, b) => b <=? t
  | (Op_lt, b) => t <? b
  | (Op_lte, b) => t <=? b
  end.

Definition id_matches (f : id_filter) (id : string) : bool :=
  match f with
  | IdEq x => String.eqb id x
  | IdIn xs => includes xs id
  end.

(** A stored measurement satisfies a query document. *)
Definition matches (q : measurement_query) (m : measurement) : bool :=
  id_matches (mq_sensor_id q) (m_sensor_id m)
  && forallb (cmp_holds (m_createdAt m)) (mq_createdAt q).

(** [Measurement.find(q).limit(n)]: the matching documents in stored order. *)
Definition Measurement_find (q : measurement_query) (limit : option nat)
    (store : list measurement) : list measurement :=
  let found := List.filter (matches q) store in
  match limit with
  | Some n => take n found
  | None => found
  end.

(** Lean rows under the projections [{createdAt: 1, value: 1, _id: 0}] and
    [{createdAt: 1, value: 1, _id: 0, sensor_id: 1}]. *)
Definition lean_row (m : measurement) : obj :=
  <["value" := m_value m]> (<["createdAt" := VDate (m_createdAt m)]> ∅).

Definition lean_row_with_sensor (m : measurement) : obj :=
  <["sensor_id" := VObjectId (m_sensor_id m)]> (lean_row m).

(** *** Time window (lines 214-230 and 308-324) *)

(** Modelled from the spec: utils.parseTimeParameter of lib/utils.js, which
    is not among the sources.  Each bound defaults independently when it is
    not given; a given bound that does not parse is a failure. *)
Definition parseTimeParameter (E : export_env) (req : request)
    (paramName : string) (defaultValue : Z) : error + Z :=
  match params req !! paramName with
  | None => inr defaultValue
  | Some raw =>
      match parse_instant E raw with
      | Some t => inr t
      | None => inl (Error TimeError (Msg paramName))
      end
  end.

(** Modelled from the spec: utils.validateTimeParameters of lib/utils.js,
    which is not among the sources.  The window is valid exactly when
    [fromDate] is strictly before [toDate]; [None] is the [undefined] the
    handlers test for. *)
Definition validateTimeParameters (toDate fromDate : Z) : option error :=
  if fromDate <? toDate then None
  else Some (Error TimeError (Msg "from-date is not before to-date")).

(** Durations in milliseconds; the moments are in UTC, where a day has 24
    hours. *)
Definition hours (n : Z) : Z := n * 3600000.
Definition days (n : Z) : Z := n * 86400000.

(** The first three steps of both export handlers: to-date defaults to the
    current time, from-date to [before] milliseconds earlier than the
    resolved to-date; the result is [(fromDate, toDate)]. *)
Definition time_window (E : export_env) (before : Z) (req : request) (now : Z)
    : error + (Z * Z) :=
  match parseTimeParameter E req "to-date" now with
  | inl e => inl e
  | inr toDate =>
      match parseTimeParameter E req "from-date" (toDate - before) with
      | inl e => inl e
      | inr fromDate =>
          match validateTimeParameters toDate fromDate with
          | Some e => inl e
          | None => inr (fromDate, toDate)
          end
      end
  end.

Definition getData_window (E : export_env) (req : request) (now : Z) :=
  time_window E (hours 48) req now.

Definition getDataMulti_window (E : export_env) (req : request) (now : Z) :=
  time_window E (days 15) req now.

(** *** Serializers *)

Definition newline : string := String (ascii_of_nat 10) EmptyString.

(** Modelled from the spec: the CSV serializer (the csv-stringify package,
    configured with [columns], [header: 1] and [delimiter]).  A header row of
    the column names, then one line per record with the fields in the
    configured column order, separated by the delimiter. *)
Definition csv_header (delim : string) (columns : list string) : string :=
  String.concat delim columns ++ newline.

Definition csv_record (E : export_env) (delim : string) (columns : list string)
    (data : obj) : string :=
  String.concat delim (List.map (fun c => csv_field E delim (get data c)) columns)
  ++ newline.

(** The piped stream: every row of the cursor goes through the transform and
    the serializer to the response, in cursor order; an exception in the
    transform ends the stream and is reported once. *)
Fixpoint pipe (transform : obj -> exn + obj) (render : bool -> obj -> string)
    (on_error : exn -> event) (close : list event) (first : bool)
    (rows : list obj) : list event :=
  match rows with
  | [] => close
  | r :: rest =>
      match transform r with
      | inl x => [on_error x]
      | inr d => Write (render first d) :: pipe transform render on_error close false rest
      end
  end.

Definition csv_stream (E : export_env) (delim : string) (columns : list string)
    (transform : obj -> exn + obj) (on_error : exn -> event) (rows : list obj)
    : list event :=
  Write (csv_header delim columns)
  :: pipe transform (fun _ d => csv_record E delim columns d) on_error [] true rows.

(** [jsonstringify({ open: '[', close: ']' })]. *)
Definition json_stream (E : export_env) (transform : obj -> exn + obj)
    (on_error : exn -> event) (rows : list obj) : list event :=
  Write "["
  :: pipe transform
       (fun first d => if first then JSON_stringify E d else "," ++ JSON_stringify E d)
       on_error [Write "]"] true rows.

(** The chunks written to the response. *)
Definition written (tr : list event) : list string :=
  omap (fun ev => match ev with Write c => Some c | _ => None end) tr.

(** *** getData: one sensor (lines 213-287) *)

(** [new Date(v)]. *)
Definition new_Date (E : export_env) (v : value) : option Z :=
  match v with
  | VDate t => Some t
  | _ => Date_parse E v
  end.

(** The row transform of [getData]:
    [data.createdAt = new Date(data.createdAt).toISOString()]. *)
Definition getData_transform (E : export_env) (data : obj) : exn + obj :=
  match new_Date E (get data "createdAt") with
  | None => inl (RangeError "Invalid time value")
  | Some t => inr (<["createdAt" := VStr (toISOString E t)]> data)
  end.

Definition getData_columns : list string := ["createdAt"; "value"].

Definition queryLimit : nat := Z.to_nat 10000.

(** The query document of [getData]; the route binds [sensorId]. *)
Definition getData_qry (sensorId : string) (fromDate toDate : Z) : measurement_query :=
  {| mq_sensor_id := IdEq sensorId;
     mq_createdAt := [(Op_gte, fromDate); (Op_lte, toDate)] |}.

(** [`${x}`] of a parameter that may be missing. *)
Definition template (o : option string) : string := default "undefined" o.

Definition getData (E : export_env) (req : request) (now : Z)
    (store : list measurement) : list event :=
  match getData_window E req now with
  | inl e => [Next e]
  | inr (fromDate, toDate) =>
      match getRequestedFormat E req ["json"; "csv"] "json" with
      | None =>
          [Next (Error InvalidArgumentError
                   (Msg ("Invalid format: " ++ template (params req !! "format"))))]
      | Some format =>
          let on_error := fun x => Next (Error InternalServerError (MessageOf x)) in
          let is_csv := String.eqb format "csv" in
          let is_json := String.eqb format "json" in
          if negb (is_csv || is_json) then
            (* no stringifier was built: [stringifier.on] throws *)
            [Uncaught (TypeError "stringifier is undefined")]
          else
            let sensorId := template (params req !! "sensorId") in
            let content_type :=
              if is_csv then Header "Content-Type" "text/csv"
              else Header "Content-Type" "application/json; charset=utf-8" in
            let download :=
              if is_csv || bool_decide (params req !! "download" = Some "true")
              then [Header "Content-Disposition"
                      ("attachment; filename=" ++ sensorId ++ "." ++ format)]
              else [] in
            let qry := getData_qry sensorId fromDate toDate in
            let rows := List.map lean_row (Measurement_find qry (Some queryLimit) store) in
            (content_type :: download)
            ++ MeasurementFind qry (Some queryLimit)
            :: (if is_csv
                then csv_stream E (getDelimiter E req) getData_columns
                       (getData_transform E) on_error rows
                else json_stream E (getData_transform E) on_error rows)
      end
  end.

(** *** getDataMulti: many boxes (lines 304-453) *)

Definition GET_DATA_MULTI_DEFAULT_COLUMNS : list string :=
  ["createdAt"; "value"; "lat"; "lng"].

Definition GET_DATA_MULTI_ALLOWED_COLUMNS : list string :=
  ["createdAt"; "value"; "lat"; "lng"; "unit"; "boxId"; "sensorId";
   "phenomenon"; "sensorType"; "boxName"; "exposure"].

Definition comma : ascii := ascii_of_nat 44.

(** The column parameter (lines 326-335). *)
Definition getDataMulti_columns (req : request) : error + list string :=
  match params req !! "columns" with
  | Some columnsParam =>
      if negb (String.eqb (trim columnsParam) "") then
        let columns := split comma columnsParam in
        if some (fun c => negb (includes GET_DATA_MULTI_ALLOWED_COLUMNS c)) columns
        then inl (Error UnprocessableEntityError (Msg "illegal columns parameter"))
        else inr columns
      else inr GET_DATA_MULTI_DEFAULT_COLUMNS
  | None => inr GET_DATA_MULTI_DEFAULT_COLUMNS
  end.

(** The phenomenon parameter (lines 339-345). *)
Definition getDataMulti_phenomenon (req : request) : error + string :=
  match params req !! "phenomenon" with
  | Some phenomenon =>
      if negb (String.eqb phenomenon "") && negb (String.eqb (trim phenomenon) "")
      then inr (trim phenomenon)
      else inl (Error BadRequestError (Msg "invalid phenomenon parameter"))
  | None => inl (Error BadRequestError (Msg "invalid phenomenon parameter"))
  end.

(** [req.boxId] and [req.bbox] as conditions: a string is truthy unless it is
    empty, an array always. *)
Definition given_boxId (req : request) : bool :=
  match boxId req with
  | Some s => negb (String.eqb s "")
  | None => false
  end.

Definition given_bbox (req : request) : bool :=
  match bbox req with
  | Some _ => true
  | None => false
  end.

(** The box selection (lines 347-375). *)
Definition getDataMulti_selection (req : request) : error + selection :=
  if given_boxId req && given_bbox req then
    inl (Error BadRequestError (Msg "please specify only boxId or bbox"))
  else if given_boxId req || given_bbox req then
    if given_boxId req then
      inr (ByIds (split comma (default "" (boxId req))))
    else
      let b := default [] (bbox req) in
      inr (ByPolygon [ (index b 0, index b 1);
                       (index b 0, index b 3);
                       (index b 2, index b 3);
                       (index b 2, index b 1);
                       (index b 0, index b 1) ])
  else
    inl (Error BadRequestError (Msg "please specify either boxId or bbox")).

(** The exposure parameter (lines 377-385). *)
Definition getDataMulti_exposure (req : request) : error + option string :=
  match params req !! "exposure" with
  | Some raw =>
      if negb (String.eqb raw "") then
        let exposureParam := trim raw in
        if String.eqb exposureParam "indoor" || String.eqb exposureParam "outdoor"
        then inr (Some exposureParam)
        else inl (Error UnprocessableEntityError
                    (Msg "exposure column should be indoor or outdoor"))
      else inr None
  | None => inr None
  end.

(** The sensor document as an object. *)
Definition sensor_object (s : sensor) : obj :=
  <["_id" := VObjectId (sensor_id s)]> (attrs s).

(** One Sidecar Entry (lines 396-404): the sensor document, extended in place
    with the columns of its box.  Reading [loc[0].geometry] of a box without
    a location throws. *)
Definition sidecar_entry (b : box) (s : sensor) : exn + obj :=
  match loc b with
  | [] => inl (TypeError "Cannot read property 'geometry' of undefined")
  | l0 :: _ =>
      let sensor0 := sensor_object s in
      let sensor1 := <["lat" := index (coordinates l0) 0]> sensor0 in
      let sensor2 := <["lng" := index (coordinates l0) 1]> sensor1 in
      let sensor3 := <["boxId" := VStr (box_id b)]> sensor2 in
      let sensor4 := <["boxName" := box_name b]> sensor3 in
      let sensor5 := <["exposure" := box_exposure b]> sensor4 in
      let sensor6 := <["sensorId" := VStr (sensor_id s)]> sensor5 in
      inr (<["phenomenon" := get sensor6 "title"]> sensor6)
  end.

(** [boxData[i].sensors[j].title === phenomenon]. *)
Definition has_title (phenomenon : string) (s : sensor) : bool :=
  match get (sensor_object s) "title" with
  | VStr t => String.eqb t phenomenon
  | _ => false
  end.

(** The inner loop over the sensors of one box (lines 394-408). *)
Fixpoint sidecar_of_sensors (phenomenon : string) (b : box) (ss : list sensor)
    (acc : gmap string obj) : exn + gmap string obj :=
  match ss with
  | [] => inr acc
  | s :: rest =>
      if has_title phenomenon s then
        match sidecar_entry b s with
        | inl x => inl x
        | inr entry => sidecar_of_sensors phenomenon b rest (<[sensor_id s := entry]> acc)
        end
      else sidecar_of_sensors phenomenon b rest acc
  end.

(** The outer loop over the boxes (lines 393-409). *)
Fixpoint sidecar_of_boxes (phenomenon : string) (boxData : list box)
    (acc : gmap string obj) : exn + gmap string obj :=
  match boxData with
  | [] => inr acc
  | b :: rest =>
      match sidecar_of_sensors phenomenon b (sensors b) acc with
      | inl x => inl x
      | inr acc' => sidecar_of_boxes phenomenon rest acc'
      end
  end.

(** The Sidecar: from sensor identity to its entry, starting from
    [Object.create(null)]. *)
Definition build_sidecar (phenomenon : string) (boxData : list box)
    : exn + gmap string obj :=
  sidecar_of_boxes phenomenon boxData ∅.

(** [Object.keys(sensors)]. *)
Definition keys (sidecar : gmap string obj) : list string :=
  (map_to_list sidecar).*1.

(** One step of the column loop (lines 416-418): a column whose value on the
    row is falsy is read from [sensors[data.sensor_id]]; reading a property
    of a missing entry throws. *)
Definition fill_column (E : export_env) (sidecar : gmap string obj)
    (data : obj) (col : string) : exn + obj :=
  if negb (truthy (get data col)) then
    match sidecar !! ToString E (get data "sensor_id") with
    | None => inl (TypeError ("Cannot read property '" ++ col ++ "' of undefined"))
    | Some entry => inr (<[col := get entry col]> data)
    end
  else inr data.

(** [for (const col of columns) ...] (lines 415-419). *)
Fixpoint fill_columns (E : export_env) (sidecar : gmap string obj)
    (columns : list string) (data : obj) : exn + obj :=
  match columns with
  | [] => inr data
  | col :: rest =>
      match fill_column E sidecar data col with
      | inl x => inl x
      | inr data' => fill_columns E sidecar rest data'
      end
  end.

(** The timestamp step of the row transform (line 413). *)
Definition normalize_createdAt (E : export_env) (data : obj) : obj :=
  <["createdAt" := timestampISO E (get data "createdAt")]> data.

(** The row transform of [getDataMulti] (lines 412-422). *)
Definition getDataMulti_transform (E : export_env) (sidecar : gmap string obj)
    (columns : list string) (data : obj) : exn + obj :=
  fill_columns E sidecar columns (normalize_createdAt E data).

(** The query document of the measurement cursor (lines 432-440). *)
Definition getDataMulti_qry (sidecar : gmap string obj) (fromDate toDate : Z)
    : measurement_query :=
  {| mq_sensor_id := IdIn (keys sidecar);
     mq_createdAt := [(Op_gt, fromDate); (Op_lt, toDate)] |}.

(** The rows the measurement cursor of [getDataMulti] delivers. *)
Definition getDataMulti_cursor (sidecar : gmap string obj) (fromDate toDate : Z)
    (store : list measurement) : list obj :=
  List.map lean_row_with_sensor
    (Measurement_find (getDataMulti_qry sidecar fromDate toDate) None store).

(** What happens once [Box.find] has answered (lines 390-446). *)
Definition getDataMulti_export (E : export_env) (delim : string)
    (columns : list string) (phenomenon : string) (fromDate toDate : Z)
    (boxData : list box) (store : list measurement) : list event :=
  match build_sidecar phenomenon boxData with
  | inl x => [Next (Error InternalServerError (JsonErrorsOf x))]
  | inr sidecar =>
      Header "Content-Type" "text/csv"
      :: MeasurementFind (getDataMulti_qry sidecar fromDate toDate) None
      :: csv_stream E delim columns
           (getDataMulti_transform E sidecar columns)
           (fun x => Next (Error InternalServerError (JsonMessageOf x)))
           (getDataMulti_cursor sidecar fromDate toDate store)
  end.

Definition getDataMulti (E : export_env) (req : request) (now : Z)
    (store : list measurement) : list event :=
  match getDataMulti_window E req now with
  | inl e => [Next e]
  | inr (fromDate, toDate) =>
      let delim := getDelimiter E req in
      match getDataMulti_columns req with
      | inl e => [Next e]
      | inr columns =>
          match getDataMulti_phenomenon req with
          | inl e => [Next e]
          | inr phenomenon =>
              match getDataMulti_selection req with
              | inl e => [Next e]
              | inr sel =>
                  match getDataMulti_exposure req with
                  | inl e => [Next e]
                  | inr exposure =>
                      let queryParams :=
                        {| bq_title := phenomenon;
                           bq_selection := sel;
                           bq_exposure := exposure |} in
                      BoxFind queryParams
                      :: match Box_find E queryParams with
                         | inl x => [Next (Error InternalServerError (JsonErrorsOf x))]
                         | inr boxData =>
                             getDataMulti_export E delim columns phenomenon
                               fromDate toDate boxData store
                         end
                  end
              end
          end
      end
  end.

(** *** findBox: the geojson view (lines 854-862) *)

(** An array element after [JSON.parse(JSON.stringify(...))]. *)
Definition json_element (E : export_env) (v : value) : value :=
  match v with
  | VUndefined | VNaN => VNull
  | VDate t => VStr (toISOString E t)
  | VObjectId h => VStr h
  | _ => v
  end.

Record point : Type := Point { lat : value; lng : value }.

(** [tmp.lat] and [tmp.lng] as [findBox] sets them for the geojson format. *)
Definition findBox_point (E : export_env) (b : box) : exn + point :=
  match loc b with
  | [] => inl (TypeError "Cannot read property 'geometry' of undefined")
  | l0 :: _ =>
      let coords := List.map (json_element E) (coordinates l0) in
      let lat := index coords 1 in
      let lng := index coords 0 in
      inr {| lat := lat; lng := lng |}
  end.

(** ** Ingestion (lines 466-570) *)

(** Collaborators of the ingestion handlers: the decoders of lib/decoding and
    the box model.  [decodeMessage] either returns the decoded measurements or
    throws an error with a message. *)
Record ingest_env : Type := IngestEnv {
  body : Type;                                        (* a request body *)
  array_of : list obj -> body;                        (* an array literal of objects *)
  decodeHandlers : string -> option (body -> string + list obj);
  Box_findOne : option string -> exn + option box;    (* Box.findOne({ _id }) *)
  saveMeasurement : box -> option obj -> option exn;  (* Some x: the promise rejects *)
  saveMeasurementsArray : box -> list obj -> option exn
}.

Record post_request (I : ingest_env) : Type := PostRequest {
  post_params : obj;          (* req.params *)
  post_boxId : option string; (* req.boxId *)
  contentType : string;       (* req.contentType() *)
  path : string;              (* req.path() *)
  post_body : body I          (* req.body *)
}.

Arguments post_params {I} _.
Arguments post_boxId {I} _.
Arguments contentType {I} _.
Arguments path {I} _.
Arguments post_body {I} _.

Definition slash : ascii := ascii_of_nat 47.

(** The promise chain after a successful decode: find the box, save, answer. *)
Definition store_measurements (found : exn + option box)
    (save_event : box -> event) (save : box -> option exn) (saved : string)
    : list event :=
  match found with
  | inl x => [Next (Error UnprocessableEntityError (MessageAndErrorOf x))]
  | inr None =>
      (* [return next(...)] resolves the first step, the second still runs *)
      [Next (Error NotFoundError (Msg "no senseBox found")); Send 201 saved]
  | inr (Some b) =>
      save_event b
      :: match save b with
         | Some x => [Next (Error UnprocessableEntityError (MessageAndErrorOf x))]
         | None => [Send 201 saved]
         end
  end.

(** The object literal that [postNewMeasurement] hands to the json decoder. *)
Definition single_measurement {I : ingest_env} (req : post_request I) : obj :=
  <["createdAt" := get (post_params req) "createdAt"]>
    (<["value" := get (post_params req) "value"]>
       (<["sensor_id" := get (post_params req) "sensorId"]> ∅)).

Definition postNewMeasurement (I : ingest_env) (req : post_request I) : list event :=
  let single := single_measurement req in
  match decodeHandlers I "json" with
  | None =>
      (* [jsonHandler.decodeMessage] of undefined throws inside the try *)
      [Next (Error UnprocessableEntityError
               (MessageOf (TypeError "Cannot read property 'decodeMessage' of undefined")))]
  | Some jsonHandler =>
      match jsonHandler (array_of I [single]) with
      | inl message => [Next (Error UnprocessableEntityError (Msg message))]
      | inr measurements =>
          BoxFindOne (post_boxId req)
          :: store_measurements (Box_findOne I (post_boxId req))
               (fun b => SaveMeasurement b (head measurements))
               (fun b => saveMeasurement I b (head measurements))
               "Measurement saved in box"
      end
  end.

Definition postNewMeasurements (I : ingest_env) (req : post_request I) : list event :=
  let boxId := split slash (path req) !! 2%nat in
  match decodeHandlers I (toLowerCase (contentType req)) with
  | Some handler =>
      match handler (post_body req) with
      | inl message => [Next (Error UnprocessableEntityError (Msg message))]
      | inr measurements =>
          BoxFindOne boxId
          :: store_measurements (Box_findOne I boxId)
               (fun b => SaveMeasurementsArray b measurements)
               (fun b => saveMeasurementsArray I b measurements)
               "Measurements saved in box"
      end
  | None => [Next (Error UnsupportedMediaTypeError (Msg "Unsupported content-type."))]
  end.

(** ** Concrete collaborators and documents for the examples *)

Module Sample.

Definition digit (c : ascii) : option Z :=
  let n := nat_of_ascii c in
  if ((48 <=? n) && (n <=? 57))%nat then Some (Z.of_nat n - 48) else None.

(** Instants written as decimal epoch milliseconds. *)
Fixpoint decimal (acc : Z) (s : string) : option Z :=
  match s with
  | EmptyString => Some acc
  | String c r =>
      match digit c with
      | Some d => decimal (10 * acc + d) r
      | None => None
      end
  end.

Definition parse (s : string) : option Z :=
  match s with
  | EmptyString => None
  | _ => decimal 0 s
  end.

Definition iso (t : Z) : string :=
  if t =? 0 then "1970-01-01T00:00:00.000Z" else "2017-01-01T00:00:00.000Z".

Definition cell (v : value) : string :=
  match v with
  | VStr s => s
  | VNum q => if (Qnum q =? 0) then "0" else "n"
  | _ => ""
  end.

Definition temperature : sensor :=
  {| sensor_id := "a1";
     attrs := <["title" := VStr "Temperatur"]> (<["unit" := VStr "C"]> ∅) |}.

Definition station : box :=
  {| box_id := "b1";
     box_name := VStr "Oststr";
     box_exposure := VStr "outdoor";
     loc := [ {| coordinates := [VNum (7 # 1); VNum (51 # 1)] |} ];
     sensors := [temperature] |}.

Definition env : export_env :=
  {| num_to_string := fun q => if (Qnum q =? 0) then "0" else "n";
     date_to_string := iso;
     Date_parse := fun _ => None;
     toISOString := iso;
     parse_instant := parse;
     timestampISO := fun v => match v with VDate t => VStr (iso t) | _ => VNull end;
     getDelimiter := fun _ => ",";
     getRequestedFormat := fun req allowed dflt =>
       match params req !! "format" with
       | None => Some dflt
       | Some f => if includes allowed f then Some f else None
       end;
     Box_find := fun _ => inr [station];
     csv_field := fun _ v => cell v;
     JSON_stringify := fun _ => "{}" |}.

Definition sidecar : gmap string obj :=
  match build_sidecar "Temperatur" [station] with
  | inr s => s
  | inl _ => ∅
  end.



Definition reading (t : Z) : measurement :=
  {| m_sensor_id := "a1"; m_createdAt := t; m_value := VStr "21.5" |}.

(** Decoders that refuse an empty body, and a store without boxes. *)
Definition ingest : ingest_env :=
  {| body := string;
     array_of := fun ms => match ms with
                           | [m] => match get m "value" with VStr s => s | _ => "" end
                           | _ => ""
                           end;
     decodeHandlers := fun tag =>
       if String.eqb tag "json" || String.eqb tag "text/csv"
       then Some (fun b => if String.eqb b "" then inl "empty body"
                           else inr [ <["value" := VStr b]> ∅ ])
       else None;
     Box_findOne := fun _ => inr None;
     saveMeasurement := fun _ _ => None;
     saveMeasurementsArray := fun _ _ => None |}.

Definition empty_post : post_request ingest :=
  {| post_params := ∅; post_boxId := Some "b1"; contentType := "Text/CSV";
     path := "/boxes/b1/data"; post_body := "" : body ingest |}.

Definition request_of (ps : list (string * string)) (b : option string)
    (bb : option (list value)) : request :=
  {| params := list_to_map ps; boxId := b; bbox := bb |}.

End Sample.

(** ** Box management: postNewBox, deleteBox, findAllBoxes, updateBox *)

Module Manage.

(** What a rejected promise or a caught exception carries: a text, an array
    of texts or an Error object. *)
Inductive reason : Type :=
  | RText (s : string)
  | RList (items : list string)
  | RError (name message : string).

(** [Error.prototype.toString]. *)
Definition Error_toString (name message : string) : string :=
  if String.eqb name "" then message
  else if String.eqb message "" then name
  else name ++ ": " ++ message.

(** [err.toString()]. *)
Definition reason_toString (r : reason) : string :=
  match r with
  | RText s => s
  | RList items => String.concat "," items
  | RError name message => Error_toString name message
  end.

(** [err.message]. *)
Definition reason_message (r : reason) : option string :=
  match r with
  | RError _ message => Some message
  | _ => None
  end.

(** An exception of the runtime as an Error object. *)
Definition of_exn (x : exn) : reason :=
  match x with
  | TypeError d => RError "TypeError" d
  | RangeError d => RError "RangeError" d
  | Rejected d => RError "Error" d
  end.

(** [s.endsWith(suffix)]. *)
Fixpoint endsWith (s suffix : string) : bool :=
  String.eqb s suffix
  || match s with
     | EmptyString => false
     | String _ r => endsWith r suffix
     end.

(** [s.slice(n)] for a position inside the text or at its end. *)
Fixpoint slice (n : nat) (s : string) : string :=
  match n, s with
  | O, _ => s
  | S n', String _ r => slice n' r
  | S _, EmptyString => EmptyString
  end.

(** The argument of a restify error. *)
Inductive argument : Type :=
  | ArgText (s : string)
  | ArgUndefined
  | ArgReason (r : reason)                 (* the caught value itself *)
  | ArgMessageObject (message : string)    (* { message: ... } *)
  | ArgJsonMessage (r : reason)            (* JSON.stringify(err.message) *)
  | ArgJson (r : reason).                  (* JSON.stringify(err) *)

(** The effects of a handler: the answer sent, the error handed to [next],
    the report to Honeybadger. *)
Inductive effect (A : Type) : Type :=
  | Answer (code : nat) (body : A)
  | Refuse (kind : error_kind) (arg : argument)
  | Notify (r : reason).

Arguments Answer {A} _ _.
Arguments Refuse {A} _ _.
Arguments Notify {A} _.

(** *** postNewBox (lines 912-927); [created] is how
    [Box.newFromRequest(req)] settled. *)
Definition postNewBox {A : Type} (created : reason + A) : list (effect A) :=
  match created with
  | inr user => [Answer 201 user]
  | inl err =>
      match err with
      | RList _ => [Refuse UnprocessableEntityError (ArgMessageObject (reason_toString err))]
      | _ =>
          if endsWith (reason_toString err) "Duplicate senseBox found"
          then [Refuse BadRequestError (ArgText (slice 7 (reason_toString err)))]
          else [Notify err;
                Refuse InternalServerError
                  (match reason_message err with
                   | Some m => ArgText m
                   | None => ArgUndefined
                   end)]
      end
  end.

(** *** deleteBox (lines 963-976); [deleted] is how [Box.deleteBox(req.boxId)]
    settled, [None] when it resolved. *)
Definition is_text (err : reason) (t : string) : bool :=   (* err === t *)
  match err with
  | RText s => String.eqb s t
  | _ => false
  end.

Definition deleteBox (deleted : option reason) : list (effect string) :=
  match deleted with
  | None => [Answer 200 "Box deleted"]
  | Some err =>
      if is_text err "senseBox not found"
      then [Refuse NotFoundError (ArgReason err)]
      else [Notify err; Refuse InternalServerError (ArgReason err)]
  end.

(** *** findAllBoxes: the geojson listing (lines 681-693) *)

(** [_.transform(collection, iteratee, [])] over an array: the iteratee works
    on the accumulator and the iteration stops early when it returns
    [false]. *)
Fixpoint transform {A B : Type} (iteratee : list B → A → exn + (list B * value))
    (result : list B) (collection : list A) : exn + list B :=
  match collection with
  | [] => inr result
  | n :: rest =>
      match iteratee result n with
      | inl x => inl x
      | inr (result', returned) =>
          match returned with
          | VBool false => inr result'
          | _ => transform iteratee result' rest
          end
      end
  end.

(** The iteratee of the listing: lat and lng are read from the parsed box,
    and the value returned is that of [result.push(n)], the new length. *)
Definition geojson_iteratee (E : export_env) (result : list (box * point)) (n : box)
    : exn + (list (box * point) * value) :=
  match loc n with
  | [] => inl (TypeError "Cannot read property 'geometry' of undefined")
  | l0 :: _ =>
      let coords := List.map (json_element E) (coordinates l0) in
      let lat := index coords 1 in
      let lng := index coords 0 in
      let result' := (result ++ [(n, {| lat := lat; lng := lng |})])%list in
      inr (result', VNum (Z.of_nat (length result') # 1))
  end.

Definition findAllBoxes_geojson (E : export_env) (resultset : list box)
    : exn + list (box * point) :=
  transform (geojson_iteratee E) [] resultset.

(** *** updateBox (lines 67-172) *)

(** The box document that [Box.findById] returns. *)
Record document : Type := Document {
  doc_id : string;
  doc_name : value;
  doc_exposure : value;
  doc_grouptag : value;
  doc_weblink : value;
  doc_description : value;
  doc_image : value;
  doc_loc : list location;
  doc_mqtt : obj;
  doc_sensors : list sensor
}.

(** One element of [req.params.sensors]. *)
Record sensor_update : Type := SensorUpdate {
  su_id : string;
  su_deleted : bool;
  su_edited : bool;
  su_new : bool;
  su_title : value;
  su_unit : value;
  su_sensorType : value;
  su_icon : value
}.

Inductive mqtt_param : Type :=
  | MqttUndefined
  | MqttNull
  | MqttObject (o : obj).

(** The parameters that [updateBox] reads; [None] is [undefined]. *)
Record update_request : Type := UpdateRequest {
  u_boxId : string;
  u_name : option string;
  u_exposure : option string;
  u_grouptag : option string;
  u_weblink : option string;
  u_description : option string;
  u_loc : option (value * value);     (* loc.lng, loc.lat *)
  u_image : option string;
  u_mqtt : mqtt_param;
  u_sensors : option (list sensor_update)
}.

(** The entries of [qrys]. *)
Inductive query : Type :=
  | SetField (path : string) (v : value)       (* what box.set(...) returned *)
  | SetMqtt (o : obj)
  | RemoveMeasurements (sensor : string)       (* Measurement.find({sensor_id}).remove() *)
  | PullSensor (sensor : string)               (* Box.update(..., {$pull: ...}) *)
  | UpdateSensor (sensor : string) (title unit sensorType icon : value)
  | Save (d : document).                       (* box.save() *)

(** The entries that are no storage queries but the document that [box.set]
    returned. *)
Definition is_assignment (q : query) : Prop :=
  (∃ path v, q = SetField path v) ∨ (∃ o, q = SetMqtt o).

(** Collaborators of [updateBox]. *)
Record update_env : Type := UpdateEnv {
  findById : string → reason + option document;     (* Box.findById *)
  String_of : value → string;                         (* String(x) *)
  decodeBase64Image : string → exn + (string * string);  (* type and data *)
  writeFileSync : string → string → option exn;
  imageFolder : string;
  time_text : Z → string;                             (* `${new Date().getTime()}` *)
  valid_ObjectId : string → bool;                     (* ObjectId(s) does not throw *)
  new_ObjectId : nat → string;                        (* the id of the n-th new Sensor *)
  settle : list query → option reason                 (* how Promise.all(qrys) settles *)
}.

(** [cur !== v] for a text [v]. *)
Definition differs (cur : value) (v : string) : bool :=
  match cur with
  | VStr c => negb (String.eqb c v)
  | _ => true
  end.

(** One of the five text blocks (lines 84-108): a parameter that is given and
    not empty replaces a field that differs from it. *)
Definition set_text (path : string) (p : option string) (cur : value)
    (qrys : list query) : value * list query :=
  match p with
  | Some v =>
      if negb (String.eqb v "") && differs cur v
      then (VStr v, (qrys ++ [SetField path (VStr v)])%list)
      else (cur, qrys)
  | None => (cur, qrys)
  end.

Definition with_loc (d : document) (l : list location) : document :=
  {| doc_id := doc_id d; doc_name := doc_name d; doc_exposure := doc_exposure d;
     doc_grouptag := doc_grouptag d; doc_weblink := doc_weblink d;
     doc_description := doc_description d; doc_image := doc_image d;
     doc_loc := l; doc_mqtt := doc_mqtt d; doc_sensors := doc_sensors d |}.

Definition with_image (d : document) (v : value) : document :=
  {| doc_id := doc_id d; doc_name := doc_name d; doc_exposure := doc_exposure d;
     doc_grouptag := doc_grouptag d; doc_weblink := doc_weblink d;
     doc_description := doc_description d; doc_image := v;
     doc_loc := doc_loc d; doc_mqtt := doc_mqtt d; doc_sensors := doc_sensors d |}.

Definition with_mqtt (d : document) (o : obj) : document :=
  {| doc_id := doc_id d; doc_name := doc_name d; doc_exposure := doc_exposure d;
     doc_grouptag := doc_grouptag d; doc_weblink := doc_weblink d;
     doc_description := doc_description d; doc_image := doc_image d;
     doc_loc := doc_loc d; doc_mqtt := o; doc_sensors := doc_sensors d |}.

Definition with_sensors (d : document) (ss : list sensor) : document :=
  {| doc_id := doc_id d; doc_name := doc_name d; doc_exposure := doc_exposure d;
     doc_grouptag := doc_grouptag d; doc_weblink := doc_weblink d;
     doc_description := doc_description d; doc_image := doc_image d;
     doc_loc := doc_loc d; doc_mqtt := doc_mqtt d; doc_sensors := ss |}.

(** The five text blocks in source order (lines 84-108). *)
Definition update_texts (req : update_request) (d : document) (qrys : list query)
    : document * list query :=
  let '(name, q1) := set_text "name" (u_name req) (doc_name d) qrys in
  let '(exposure, q2) := set_text "exposure" (u_exposure req) (doc_exposure d) q1 in
  let '(grouptag, q3) := set_text "grouptag" (u_grouptag req) (doc_grouptag d) q2 in
  let '(weblink, q4) := set_text "weblink" (u_weblink req) (doc_weblink d) q3 in
  let '(description, q5) :=
    set_text "description" (u_description req) (doc_description d) q4 in
  ({| doc_id := doc_id d; doc_name := name; doc_exposure := exposure;
      doc_grouptag := grouptag; doc_weblink := weblink;
      doc_description := description; doc_image := doc_image d;
      doc_loc := doc_loc d; doc_mqtt := doc_mqtt d; doc_sensors := doc_sensors d |},
   q5).

(** The location block (lines 109-113): the coordinates become [lng, lat]
    unless both already print as the parameters. *)
Definition update_loc (U : update_env) (req : update_request) (d : document)
    : exn + document :=
  match u_loc req with
  | None => inr d
  | Some (lng, lat) =>
      match doc_loc d with
      | [] => inl (TypeError "Cannot read property 'geometry' of undefined")
      | l0 :: rest =>
          let printed (i : nat) (p : value) : bool :=
            match p with
            | VStr s => String.eqb (String_of U (index (coordinates l0) i)) s
            | _ => false
            end in
          if negb (printed 0%nat lng) || negb (printed 1%nat lat)
          then inr (with_loc d ({| coordinates := [lng; lat] |} :: rest))
          else inr d
      end
  end.

(** How the synchronous part of the handler ends. *)
Inductive plan : Type :=
  | Thrown (x : exn)                            (* caught by the outer catch *)
  | Aborted (x : exn)                           (* the image could not be written *)
  | Planned (d : document) (qrys : list query). (* up to Promise.all(qrys) *)

(** The image block (lines 114-124); the result also tells which file was
    written. *)
Definition update_image (U : update_env) (req : update_request) (now : Z)
    (d : document) (qrys : list query)
    : option (string * string) * (exn + (exn + (document * list query))) :=
  match u_image req with
  | Some data =>
      if negb (String.eqb data "") then
        match decodeBase64Image U data with
        | inl x => (None, inl x)
        | inr (type, bytes) =>
            let extension := if String.eqb type "image/jpeg" then ".jpg" else ".png" in
            let file := imageFolder U ++ u_boxId req ++ extension in
            match writeFileSync U file bytes with
            | Some e => (None, inr (inl e))
            | None =>
                let image := VStr (u_boxId req ++ extension ++ "?" ++ time_text U now) in
                (Some (file, bytes),
                 inr (inr (with_image d image, (qrys ++ [SetField "image" image])%list)))
            end
        end
      else (None, inr (inr (d, qrys)))
  | None => (None, inr (inr (d, qrys)))
  end.

(** The mqtt block (lines 125-129). *)
Definition update_mqtt (req : update_request) (d : document) (qrys : list query)
    : document * list query :=
  match u_mqtt req with
  | MqttNull => (with_mqtt d ∅, (qrys ++ [SetMqtt ∅])%list)
  | MqttObject o =>
      match get o "url", get o "topic" with
      | VUndefined, _ | _, VUndefined => (d, qrys)
      | _, _ => (with_mqtt d o, (qrys ++ [SetMqtt o])%list)
      end
  | MqttUndefined => (d, qrys)
  end.

(** The body of the loop over the sensors (lines 131-153); [created] counts
    the sensors made so far. *)
Definition update_sensor (U : update_env) (su : sensor_update)
    (st : list sensor * list query * nat) : exn + (list sensor * list query * nat) :=
  let '(ss, qrys, created) := st in
  if su_deleted su then
    if valid_ObjectId U (su_id su)
    then inr (ss, (qrys ++ [RemoveMeasurements (su_id su); PullSensor (su_id su)])%list,
              created)
    else inl (TypeError "Argument passed in must be a single String of 12 bytes")
  else if su_edited su && su_new su then
    let newsensor :=
      {| sensor_id := new_ObjectId U created;
         attrs := <["icon" := su_icon su]>
                    (<["sensorType" := su_sensorType su]>
                       (<["unit" := su_unit su]> (<["title" := su_title su]> ∅))) |} in
    inr ((ss ++ [newsensor])%list, qrys, S created)
  else if su_edited su && negb (su_deleted su) then
    if valid_ObjectId U (su_id su)
    then inr (ss, (qrys ++ [UpdateSensor (su_id su) (su_title su) (su_unit su)
                              (su_sensorType su) (su_icon su)])%list, created)
    else inl (TypeError "Argument passed in must be a single String of 12 bytes")
  else inr st.

Fixpoint update_sensors (U : update_env) (updates : list sensor_update)
    (st : list sensor * list query * nat) : exn + (list sensor * list query * nat) :=
  match updates with
  | [] => inr st
  | su :: rest =>
      match update_sensor U su st with
      | inl x => inl x
      | inr st' => update_sensors U rest st'
      end
  end.

(** The callback of [Box.findById(...).then] up to [Promise.all] (lines
    83-155), with the file it wrote on the way. *)
Definition update_plan (U : update_env) (req : update_request) (now : Z)
    (box : document) : option (string * string) * plan :=
  let '(d1, q1) := update_texts req box [] in
  match update_loc U req d1 with
  | inl x => (None, Thrown x)
  | inr d2 =>
      match update_image U req now d2 q1 with
      | (file, inl x) => (file, Thrown x)
      | (file, inr (inl e)) => (file, Aborted e)
      | (file, inr (inr (d3, q3))) =>
          let '(d4, q4) := update_mqtt req d3 q3 in
          match
            match u_sensors req with
            | Some updates => update_sensors U updates (doc_sensors d4, q4, O)
            | None => inr (doc_sensors d4, q4, O)
            end
          with
          | inl x => (file, Thrown x)
          | inr (ss, q5, _) =>
              let d5 := with_sensors d4 ss in
              (file, Planned d5 (q5 ++ [Save d5])%list)
          end
      end
  end.

(** The same callback when [Box.findById] resolved with [null]: the first
    statement that touches the box throws, which a given text or location
    parameter does before the image block and everything else after it. *)
Definition given_text (p : option string) : bool :=
  match p with
  | Some v => negb (String.eqb v "")
  | None => false
  end.

Definition update_plan_null (U : update_env) (req : update_request)
    : option (string * string) * plan :=
  let null := TypeError "Cannot read property of null" in
  if given_text (u_name req) || given_text (u_exposure req)
     || given_text (u_grouptag req) || given_text (u_weblink req)
     || given_text (u_description req)
     || match u_loc req with Some _ => true | None => false end
  then (None, Thrown null)
  else
    match u_image req with
    | Some data =>
        if negb (String.eqb data "") then
          match decodeBase64Image U data with
          | inl x => (None, Thrown x)
          | inr (type, bytes) =>
              let extension := if String.eqb type "image/jpeg" then ".jpg" else ".png" in
              let file := imageFolder U ++ u_boxId req ++ extension in
              match writeFileSync U file bytes with
              | Some e => (None, Aborted e)
              | None => (Some (file, bytes), Thrown null)
              end
          end
        else (None, Thrown null)
    | None => (None, Thrown null)
    end.

(** The effects of [updateBox]. *)
Inductive update_effect : Type :=
  | WriteFile (file data : string)
  | Run (q : query)
  | GenerateSketch (d : document)
  | Reply (e : effect document).

Definition caught (err : reason) : list update_effect :=
  [Reply (Notify err); Reply (Refuse InternalServerError (ArgJsonMessage err))].

Definition updateBox (U : update_env) (req : update_request) (now : Z)
    : list update_effect :=
  match findById U (u_boxId req) with
  | inl err => caught err
  | inr found =>
      let '(file, p) :=
        match found with
        | Some box => update_plan U req now box
        | None => update_plan_null U req
        end in
      match file with
      | Some (name, data) => [WriteFile name data]
      | None => []
      end
      ++ match p with
         | Thrown x => caught (of_exn x)
         | Aborted e =>
             [Reply (Refuse InternalServerError (ArgJsonMessage (of_exn e)))]
         | Planned d qrys =>
             List.map Run qrys
             ++ match settle U qrys with
                | Some err => caught err
                | None => [GenerateSketch d; Reply (Answer 200 d)]
                end
         end
  end.

(** The document as the lean box that the other handlers read. *)
Definition lean_box (d : document) : box :=
  {| box_id := doc_id d; box_name := doc_name d; box_exposure := doc_exposure d;
     loc := doc_loc d; sensors := doc_sensors d |}.

End Manage.

(** ** More documents and collaborators for the examples *)

Module Demo.

(** A box without location that has a temperature sensor. *)
Definition adrift : box :=
  {| box_id := "b2"; box_name := VStr "Boje"; box_exposure := VStr "outdoor";
     loc := []; sensors := [Sample.temperature] |}.

(** Decoders that accept any non-empty body, and a store that knows the box
    b1 only. *)
Definition ingest : ingest_env :=
  {| body := string;
     array_of := fun ms => match ms with
                           | [m] => match get m "value" with VStr s => s | _ => "" end
                           | _ => ""
                           end;
     decodeHandlers := fun tag =>
       if String.eqb tag "json" || String.eqb tag "text/csv"
       then Some (fun b => if String.eqb b "" then inl "empty body"
                           else inr [ <["value" := VStr b]> ∅ ])
       else None;
     Box_findOne := fun id =>
       match id with
       | Some "b1" => inr (Some Sample.station)
       | _ => inr None
       end;
     saveMeasurement := fun _ _ => None;
     saveMeasurementsArray := fun _ _ => None |}.

Definition csv_post : post_request ingest :=
  {| post_params := ∅; post_boxId := Some "b1"; contentType := "text/csv";
     path := "/boxes/b1/data"; post_body := "a1,21.5" : body ingest |}.

Definition document : Manage.document :=
  {| Manage.doc_id := "b1";
     Manage.doc_name := VStr "Oststr";
     Manage.doc_exposure := VStr "outdoor";
     Manage.doc_grouptag := VStr "";
     Manage.doc_weblink := VUndefined;
     Manage.doc_description := VStr "at the corner";
     Manage.doc_image := VUndefined;
     Manage.doc_loc := [ {| coordinates := [VNum (7 # 1); VNum (51 # 1)] |} ];
     Manage.doc_mqtt := ∅;
     Manage.doc_sensors := [Sample.temperature] |}.

(** A file system that refuses every write. *)
Definition read_only : Manage.update_env :=
  {| Manage.findById := fun _ => inr (Some document);
     Manage.String_of := fun v => match v with VStr s => s | _ => "n" end;
     Manage.decodeBase64Image := fun data => inr ("image/png", data);
     Manage.writeFileSync := fun _ _ => Some (Rejected "EROFS");
     Manage.imageFolder := "/img/";
     Manage.time_text := fun _ => "0";
     Manage.valid_ObjectId := fun id => negb (String.eqb id "");
     Manage.new_ObjectId := fun n => if (n =? 0)%nat then "n0" else "n1";
     Manage.settle := fun _ => None |}.

Definition writable : Manage.update_env :=
  {| Manage.findById := fun _ => inr (Some document);
     Manage.String_of := fun v => match v with VStr s => s | _ => "n" end;
     Manage.decodeBase64Image := fun data => inr ("image/png", data);
     Manage.writeFileSync := fun _ _ => None;
     Manage.imageFolder := "/img/";
     Manage.time_text := fun _ => "0";
     Manage.valid_ObjectId := fun id => negb (String.eqb id "");
     Manage.new_ObjectId := fun n => if (n =? 0)%nat then "n0" else "n1";
     Manage.settle := fun _ => None |}.

Definition nothing : Manage.update_request :=
  {| Manage.u_boxId := "b1"; Manage.u_name := None; Manage.u_exposure := None;
     Manage.u_grouptag := None; Manage.u_weblink := None;
     Manage.u_description := None; Manage.u_loc := None; Manage.u_image := None;
     Manage.u_mqtt := Manage.MqttUndefined; Manage.u_sensors := None |}.

Definition rename : Manage.update_request :=
  {| Manage.u_boxId := "b1"; Manage.u_name := Some "Weststr";
     Manage.u_exposure := None; Manage.u_grouptag := None;
     Manage.u_weblink := None; Manage.u_description := Some "";
     Manage.u_loc := None; Manage.u_image := None;
     Manage.u_mqtt := Manage.MqttUndefined; Manage.u_sensors := None |}.

Definition with_picture : Manage.update_request :=
  {| Manage.u_boxId := "b1"; Manage.u_name := Some "Weststr";
     Manage.u_exposure := None; Manage.u_grouptag := None;
     Manage.u_weblink := None; Manage.u_description := None;
     Manage.u_loc := None; Manage.u_image := Some "data";
     Manage.u_mqtt := Manage.MqttUndefined;
     Manage.u_sensors := Some [ {| Manage.su_id := "a1"; Manage.su_deleted := true;
                                   Manage.su_edited := true; Manage.su_new := true;
                                   Manage.su_title := VStr "t"; Manage.su_unit := VStr "u";
                                   Manage.su_sensorType := VStr "s";
                                   Manage.su_icon := VUndefined |} ] |}.

Definition move : Manage.update_request :=
  {| Manage.u_boxId := "b1"; Manage.u_name := None; Manage.u_exposure := None;
     Manage.u_grouptag := None; Manage.u_weblink := None;
     Manage.u_description := None;
     Manage.u_loc := Some (VNum (8 # 1), VNum (52 # 1));
     Manage.u_image := None;
     Manage.u_mqtt := Manage.MqttUndefined; Manage.u_sensors := None |}.

End Demo.

(** ** Text helpers for the statements *)

(** The character does not occur in the text. *)
Fixpoint no_char (c : ascii) (s : string) : bool :=
  match s with
  | EmptyString => true
  | String a r => negb (Ascii.eqb a c) && no_char c r
  end.




(** * Properties *)

(** ** Objects, arrays and strings *)

Section Objects.

Implicit Types (o : obj) (k : string) (v : value).

Lemma get_insert_eq o k v : get (<[k := v]> o) k = v.
Proof. unfold get. by rewrite lookup_insert_eq. Qed.

Lemma get_insert_ne o k k' v : k ≠ k' → get (<[k := v]> o) k' = get o k'.
Proof. intros Hne. unfold get. by rewrite lookup_insert_ne. Qed.

Lemma get_empty k : get ∅ k = VUndefined.
Proof. unfold get. by rewrite lookup_empty. Qed.

Lemma truthy_undefined : truthy VUndefined = false.
Proof. reflexivity. Qed.

Lemma includes_elem_of (a : list string) (x : string) :
  includes a x = true ↔ x ∈ a.
Proof.
  unfold includes. rewrite existsb_exists. split.
  - intros (y & Hin & Heq). apply String.eqb_eq in Heq. subst y.
    by apply list_elem_of_In.
  - intros Hin. exists x. split; [by apply list_elem_of_In | apply String.eqb_refl].
Qed.


Lemma keys_elem_of (sidecar : gmap string obj) k :
  k ∈ keys sidecar ↔ is_Some (sidecar !! k).
Proof.
  unfold keys. rewrite list_elem_of_fmap. split.
  - intros ([k' e] & -> & Hin). apply elem_of_map_to_list in Hin. by exists e.
  - intros [e He]. exists (k, e). split; [done | by apply elem_of_map_to_list].
Qed.

End Objects.

(** ** The row transform of the multi-box export *)

Section RowTransform.

Context (E : export_env).
Implicit Types (sidecar : gmap string obj) (data d : obj) (col c : string).




(** With a Sidecar Entry and a truthy sensor identity the loop succeeds, and
    its result is the row with every falsy requested column read from the
    entry. *)
Lemma fill_columns_entry sidecar entry columns : ∀ data,
  truthy (get data "sensor_id") = true →
  sidecar !! ToString E (get data "sensor_id") = Some entry →
  ∃ d, fill_columns E sidecar columns data = inr d
       ∧ ∀ c, get d c =
              if bool_decide (c ∈ columns) && negb (truthy (get data c))
              then get entry c else get data c.
Proof.
  induction columns as [|col rest IH]; intros data Hid Hentry; cbn [fill_columns].
  - exists data. split; [done|]. intros c.
    rewrite bool_decide_eq_false_2; [done | apply not_elem_of_nil].
  - unfold fill_column. destruct (truthy (get data col)) eqn:Hcol; cbn [negb].
    + destruct (IH data Hid Hentry) as (d & Hd & Hget). exists d. split; [done|].
      intros c. rewrite Hget. destruct (decide (c = col)) as [->|Hne].
      * rewrite Hcol. by rewrite !andb_false_r.
      * replace (bool_decide (c ∈ col :: rest)) with (bool_decide (c ∈ rest)); [done|].
        apply bool_decide_ext. rewrite elem_of_cons. split; [auto | by intros [?|?]].
    + rewrite Hentry.
      assert (Hne : col ≠ "sensor_id") by (intros ->; congruence).
      destruct (IH (<[col := get entry col]> data)) as (d & Hd & Hget).
      { by rewrite get_insert_ne. }
      { by rewrite get_insert_ne. }
      exists d. split; [done|]. intros c. rewrite Hget.
      destruct (decide (c = col)) as [->|Hc].
      * rewrite get_insert_eq, Hcol.
        rewrite (bool_decide_eq_true_2 (col ∈ col :: rest)); [|by left]. simpl.
        by destruct (bool_decide (col ∈ rest) && negb (truthy (get entry col))).
      * rewrite get_insert_ne by done.
        replace (bool_decide (c ∈ col :: rest)) with (bool_decide (c ∈ rest)); [done|].
        apply bool_decide_ext. rewrite elem_of_cons. split; [auto | by intros [?|?]].
Qed.

Lemma normalize_createdAt_other data c :
  c ≠ "createdAt" → get (normalize_createdAt E data) c = get data c.
Proof. intros Hc. unfold normalize_createdAt. by rewrite get_insert_ne. Qed.

Lemma normalize_createdAt_createdAt data :
  get (normalize_createdAt E data) "createdAt" = timestampISO E (get data "createdAt").
Proof. unfold normalize_createdAt. by rewrite get_insert_eq. Qed.

End RowTransform.


(** ** The piped stream *)

Section Stream.

Context (E : export_env) (transform : obj → exn + obj) (on_error : exn → event).
Context (line : obj → string).

Lemma pipe_first close first rows :
  pipe transform (fun _ d => line d) on_error close first rows
  = pipe transform (fun _ d => line d) on_error close true rows.
Proof. destruct rows as [|r rest]; [done|]. simpl. by destruct (transform r). Qed.

(** Rows that the transform accepts are written in order; the stream goes on
    with what follows them. *)
Lemma pipe_accepted close rest : ∀ rows ds first,
  Forall2 (fun r d => transform r = inr d) rows ds →
  pipe transform (fun _ d => line d) on_error close first (rows ++ rest)
  = (List.map (fun d => Write (line d)) ds
     ++ pipe transform (fun _ d => line d) on_error close true rest)%list.
Proof.
  induction rows as [|r rows IH]; intros ds first Hall.
  - apply Forall2_nil_inv_l in Hall. subst ds. simpl. apply pipe_first.
  - apply Forall2_cons_inv_l in Hall as (d & ds' & Hd & Hall & ->).
    simpl. rewrite Hd. f_equal. rewrite (IH ds' false Hall). done.
Qed.

Lemma written_writes (cs : list string) (tail : list event) :
  written (List.map Write cs ++ tail)%list = (cs ++ written tail)%list.
Proof.
  unfold written. induction cs as [|c cs IH]; simpl; [done|]. f_equal. apply IH.
Qed.

End Stream.

(** ** The measurement cursor *)

Section Cursor.

Implicit Types (m : measurement) (store : list measurement) (q : measurement_query).

Lemma elem_of_Measurement_find q store m :
  m ∈ Measurement_find q None store ↔ m ∈ store ∧ matches q m = true.
Proof.
  unfold Measurement_find. rewrite !list_elem_of_In. apply filter_In.
Qed.

Lemma matches_getDataMulti_qry (sidecar : gmap string obj) fromDate toDate m :
  matches (getDataMulti_qry sidecar fromDate toDate) m = true
  ↔ is_Some (sidecar !! m_sensor_id m)
    ∧ fromDate < m_createdAt m ∧ m_createdAt m < toDate.
Proof.
  unfold matches, getDataMulti_qry; simpl.
  rewrite !andb_true_iff, includes_elem_of, keys_elem_of, !Z.ltb_lt. tauto.
Qed.


Lemma lean_row_with_sensor_id m :
  get (lean_row_with_sensor m) "sensor_id" = VObjectId (m_sensor_id m).
Proof. unfold lean_row_with_sensor. apply get_insert_eq. Qed.

Lemma lean_row_createdAt m : get (lean_row m) "createdAt" = VDate (m_createdAt m).
Proof.
  unfold lean_row. rewrite get_insert_ne by done. apply get_insert_eq.
Qed.

(** A lean row carries no column besides the projected ones. *)
Lemma lean_row_with_sensor_other m c :
  c ≠ "sensor_id" → c ≠ "value" → c ≠ "createdAt" →
  get (lean_row_with_sensor m) c = VUndefined.
Proof.
  intros H1 H2 H3. unfold lean_row_with_sensor, lean_row.
  rewrite !get_insert_ne by done. apply get_empty.
Qed.

(** The rows of the multi-box cursor are the stored measurements of the
    Sidecar's sensors strictly inside the window. *)
Lemma elem_of_getDataMulti_cursor (sidecar : gmap string obj) fromDate toDate store row :
  row ∈ getDataMulti_cursor sidecar fromDate toDate store
  ↔ ∃ m, row = lean_row_with_sensor m ∧ m ∈ store
         ∧ is_Some (sidecar !! m_sensor_id m)
         ∧ fromDate < m_createdAt m ∧ m_createdAt m < toDate.
Proof.
  unfold getDataMulti_cursor.
  change (List.map lean_row_with_sensor) with (fmap (M := list) lean_row_with_sensor).
  rewrite list_elem_of_fmap. split.
  - intros (m & -> & Hm). apply elem_of_Measurement_find in Hm as [Hin Hq].
    apply matches_getDataMulti_qry in Hq. by exists m.
  - intros (m & -> & Hin & Hq). exists m. split; [done|].
    apply elem_of_Measurement_find. split; [done|].
    by apply matches_getDataMulti_qry.
Qed.

(** Every row of the cursor is accepted by the row transform. *)
Lemma getDataMulti_cursor_accepted (E : export_env) (sidecar : gmap string obj)
    columns fromDate toDate store row :
  row ∈ getDataMulti_cursor sidecar fromDate toDate store →
  ∃ entry d, sidecar !! ToString E (get row "sensor_id") = Some entry
             ∧ getDataMulti_transform E sidecar columns row = inr d
             ∧ ∀ c, get d c =
                    if bool_decide (c ∈ columns)
                       && negb (truthy (get (normalize_createdAt E row) c))
                    then get entry c else get (normalize_createdAt E row) c.
Proof.
  intros Hrow. apply elem_of_getDataMulti_cursor in Hrow
    as (m & -> & _ & [entry Hentry] & _).
  assert (Hid : get (normalize_createdAt E (lean_row_with_sensor m)) "sensor_id"
                = VObjectId (m_sensor_id m)).
  { rewrite normalize_createdAt_other by done. apply lean_row_with_sensor_id. }
  destruct (fill_columns_entry E sidecar entry columns
              (normalize_createdAt E (lean_row_with_sensor m))) as (d & Hd & Hget).
  { by rewrite Hid. }
  { by rewrite Hid. }
  exists entry, d. rewrite lean_row_with_sensor_id. done.
Qed.

End Cursor.

(** ** Column fill *)




(** ** Rows and Sidecar Entries *)




(** ** Request validation of the multi-box export *)

Section Validation.

Context (E : export_env).
Implicit Types (req : request) (now : Z) (store : list measurement).

(** A handler that only calls [next] has read nothing and written nothing. *)
Lemma rejected_touches_nothing (e : error) :
  Forall (fun ev => is_storage ev = false ∧ is_output ev = false) [Next e].
Proof. by repeat constructor. Qed.


(** The columns the handler goes on with are the default ones or were all
    found in the allow-list. *)
Lemma getDataMulti_columns_allowed req columns :
  getDataMulti_columns req = inr columns →
  Forall (fun c => c ∈ GET_DATA_MULTI_ALLOWED_COLUMNS) columns.
Proof.
  assert (Hdefault : Forall (fun c => c ∈ GET_DATA_MULTI_ALLOWED_COLUMNS)
                       GET_DATA_MULTI_DEFAULT_COLUMNS).
  { repeat constructor. }
  unfold getDataMulti_columns.
  destruct (params req !! "columns") as [p|]; [|by intros [= <-]].
  destruct (negb (String.eqb (trim p) "")); [|by intros [= <-]].
  destruct (some _ (split comma p)) eqn:Hsome; [done|]. intros [= <-].
  apply Forall_forall. intros c Hc. apply includes_elem_of.
  unfold some in Hsome.
  destruct (includes GET_DATA_MULTI_ALLOWED_COLUMNS c) eqn:Hinc; [done|].
  assert (existsb (fun c => negb (includes GET_DATA_MULTI_ALLOWED_COLUMNS c))
            (split comma p) = true); [|congruence].
  apply existsb_exists. exists c. split; [by apply list_elem_of_In | by rewrite Hinc].
Qed.

Lemma getDataMulti_selection_rejects req :
  given_boxId req = given_bbox req →
  getDataMulti_selection req
  = inl (Error BadRequestError
           (Msg (if given_boxId req then "please specify only boxId or bbox"
                 else "please specify either boxId or bbox"))).
Proof.
  intros Heq. unfold getDataMulti_selection. rewrite <- Heq.
  by destruct (given_boxId req).
Qed.

Lemma getDataMulti_selection_accepts req :
  given_boxId req ≠ given_bbox req →
  ∃ sel, getDataMulti_selection req = inr sel.
Proof.
  intros Hne. unfold getDataMulti_selection.
  destruct (given_boxId req), (given_bbox req); simpl; try done; eauto.
Qed.

(** The trace of [getDataMulti] once every check has passed. *)
Lemma getDataMulti_accepted req now store fromDate toDate columns phenomenon sel
    exposure boxData :
  getDataMulti_window E req now = inr (fromDate, toDate) →
  getDataMulti_columns req = inr columns →
  getDataMulti_phenomenon req = inr phenomenon →
  getDataMulti_selection req = inr sel →
  getDataMulti_exposure req = inr exposure →
  Box_find E {| bq_title := phenomenon; bq_selection := sel; bq_exposure := exposure |}
  = inr boxData →
  getDataMulti E req now store
  = BoxFind {| bq_title := phenomenon; bq_selection := sel; bq_exposure := exposure |}
    :: getDataMulti_export E (getDelimiter E req) columns phenomenon
         fromDate toDate boxData store.
Proof.
  intros Hw Hc Hp Hs He Hb. unfold getDataMulti.
  by rewrite Hw, Hc, Hp, Hs, He, Hb.
Qed.

End Validation.



(** C4: a request that gives both the box-id list and the bounding box, or
    neither of them, makes [getDataMulti] answer with a single call of [next]
    and nothing else, so before any storage read; when the earlier checks
    pass, the error is the BadRequest error that names the case.  A request
    that gives exactly one of them passes the selection check. *)
Theorem selection_needs_exactly_one (E : export_env) (req : request) (now : Z)
    (store : list measurement) :
  given_boxId req = given_bbox req →
  (∃ e, getDataMulti E req now store = [Next e])
  ∧ Forall (fun ev => is_storage ev = false ∧ is_output ev = false)
      (getDataMulti E req now store)
  ∧ (∀ w columns phenomenon,
       getDataMulti_window E req now = inr w →
       getDataMulti_columns req = inr columns →
       getDataMulti_phenomenon req = inr phenomenon →
       getDataMulti E req now store
       = [Next (Error BadRequestError
                  (Msg (if given_boxId req then "please specify only boxId or bbox"
                        else "please specify either boxId or bbox")))])
  ∧ (∀ req', given_boxId req' ≠ given_bbox req' →
             ∃ sel, getDataMulti_selection req' = inr sel).
Proof.
  intros Heq. pose proof (getDataMulti_selection_rejects req Heq) as Hsel.
  assert (Hrej : ∃ e, getDataMulti E req now store = [Next e]).
  { unfold getDataMulti.
    destruct (getDataMulti_window E req now) as [e|[f t]]; [eauto|].
    destruct (getDataMulti_columns req) as [e|columns]; [eauto|].
    destruct (getDataMulti_phenomenon req) as [e|phenomenon]; [eauto|].
    rewrite Hsel. eauto. }
  split; [done|]. split.
  { destruct Hrej as [e ->]. apply rejected_touches_nothing. }
  split.
  - intros [f t] columns phenomenon Hw Hc Hp. unfold getDataMulti.
    by rewrite Hw, Hc, Hp, Hsel.
  - intros req'. apply getDataMulti_selection_accepts.
Qed.

Lemma selection_needs_exactly_one_witness :
  let req := Sample.request_of [("phenomenon", "Temperatur")]
               (Some "b1") (Some [VNum (7 # 1); VNum (51 # 1); VNum (8 # 1); VNum (52 # 1)]) in
  given_boxId req = given_bbox req
  ∧ getDataMulti Sample.env req 100 [Sample.reading 5]
    = [Next (Error BadRequestError (Msg "please specify only boxId or bbox"))].
Proof.
  intros req.
  assert (Heq : given_boxId req = given_bbox req) by reflexivity.
  split; [exact Heq|].
  destruct (selection_needs_exactly_one Sample.env req 100 [Sample.reading 5] Heq)
    as (_ & _ & Hexact & _).
  apply (Hexact (100 - days 15, 100) GET_DATA_MULTI_DEFAULT_COLUMNS "Temperatur");
    vm_compute; reflexivity.
Defined.

(** ** Time windows *)

Section TimeWindow.

Context (E : export_env).
Implicit Types (req : request) (now before : Z).

Lemma parseTimeParameter_given req name raw t dflt :
  params req !! name = Some raw →
  parse_instant E raw = Some t →
  parseTimeParameter E req name dflt = inr t.
Proof. intros Hraw Ht. unfold parseTimeParameter. by rewrite Hraw, Ht. Qed.

Lemma parseTimeParameter_omitted req name dflt :
  params req !! name = None →
  parseTimeParameter E req name dflt = inr dflt.
Proof. intros Hraw. unfold parseTimeParameter. by rewrite Hraw. Qed.

Lemma validateTimeParameters_ok toDate fromDate :
  fromDate < toDate → validateTimeParameters toDate fromDate = None.
Proof.
  intros Hlt. unfold validateTimeParameters.
  by rewrite (proj2 (Z.ltb_lt _ _) Hlt).
Qed.

Lemma validateTimeParameters_fails toDate fromDate :
  ¬ fromDate < toDate →
  validateTimeParameters toDate fromDate
  = Some (Error TimeError (Msg "from-date is not before to-date")).
Proof.
  intros Hge. unfold validateTimeParameters.
  by rewrite (proj2 (Z.ltb_ge _ _)) by lia.
Qed.

(** A window that was resolved is a valid one. *)
Lemma time_window_valid before req now fromDate toDate :
  time_window E before req now = inr (fromDate, toDate) → fromDate < toDate.
Proof.
  unfold time_window.
  destruct (parseTimeParameter E req "to-date" now) as [e|t]; [done|].
  destruct (parseTimeParameter E req "from-date" (t - before)) as [e|f]; [done|].
  unfold validateTimeParameters. destruct (f <? t) eqn:Hlt; [|done].
  intros [= <- <-]. by apply Z.ltb_lt.
Qed.

End TimeWindow.

(** C5: for bounds that both parse, the window is resolved to exactly the
    parsed pair when from is strictly before to, and fails otherwise; with
    the failed window both export handlers only call [next] with that error,
    so nothing is queried and nothing is clamped. *)
Theorem inverted_window_rejected (E : export_env) (req : request) (now before : Z)
    (store : list measurement) (f t : string) (fromDate toDate : Z) :
  params req !! "from-date" = Some f →
  params req !! "to-date" = Some t →
  parse_instant E f = Some fromDate →
  parse_instant E t = Some toDate →
  (fromDate < toDate → time_window E before req now = inr (fromDate, toDate))
  ∧ (¬ fromDate < toDate →
     ∃ e, kind e = TimeError
          ∧ time_window E before req now = inl e
          ∧ getData E req now store = [Next e]
          ∧ getDataMulti E req now store = [Next e]).
Proof.
  intros Hf Ht Hpf Hpt.
  assert (Hw : ∀ b, time_window E b req now =
                    match validateTimeParameters toDate fromDate with
                    | Some e => inl e
                    | None => inr (fromDate, toDate)
                    end).
  { intros b. unfold time_window.
    rewrite (parseTimeParameter_given E req "to-date" t toDate now Ht Hpt).
    by rewrite (parseTimeParameter_given E req "from-date" f fromDate _ Hf Hpf). }
  split.
  - intros Hlt. by rewrite Hw, validateTimeParameters_ok.
  - intros Hge. eexists. split; [|split; [|split]].
    2: { by rewrite Hw, validateTimeParameters_fails. }
    + done.
    + unfold getData, getData_window. by rewrite Hw, validateTimeParameters_fails.
    + unfold getDataMulti, getDataMulti_window.
      by rewrite Hw, validateTimeParameters_fails.
Qed.

Lemma inverted_window_rejected_witness :
  let req := Sample.request_of
               [("from-date", "50"); ("to-date", "50"); ("phenomenon", "Temperatur")]
               (Some "b1") None in
  params req !! "from-date" = Some "50"
  ∧ parse_instant Sample.env "50" = Some 50
  ∧ ¬ 50 < 50
  ∧ ∃ e, getDataMulti Sample.env req 100 [Sample.reading 50] = [Next e]
         ∧ getData Sample.env req 100 [Sample.reading 50] = [Next e].
Proof.
  intros req.
  assert (Hf : params req !! "from-date" = Some "50") by (vm_compute; reflexivity).
  assert (Ht : params req !! "to-date" = Some "50") by (vm_compute; reflexivity).
  assert (Hp : parse_instant Sample.env "50" = Some 50) by (vm_compute; reflexivity).
  split; [exact Hf|]. split; [exact Hp|]. split; [lia|].
  destruct (inverted_window_rejected Sample.env req 100 (days 15) [Sample.reading 50]
              "50" "50" 50 50 Hf Ht Hp Hp) as [_ Hrej].
  destruct Hrej as (e & _ & _ & Hsingle & Hmulti); [lia|].
  exists e. split; [exact Hmulti | exact Hsingle].
Defined.

(** C6: with both bounds omitted the single-sensor export resolves the window
    of the 48 hours (172 800 000 ms) that end at the current time, and the
    multi-box export the window of the 15 days (1 296 000 000 ms) that end at
    the current time; with only from-date omitted, from-date is that long
    before the resolved to-date.  The resolved bounds are the bounds of the
    measurement query of each handler. *)
Theorem default_windows (E : export_env) (req : request) (now : Z) :
  params req !! "from-date" = None →
  (params req !! "to-date" = None →
     getData_window E req now = inr (now - 172800000, now)
     ∧ getDataMulti_window E req now = inr (now - 1296000000, now))
  ∧ (∀ t toDate,
       params req !! "to-date" = Some t →
       parse_instant E t = Some toDate →
       getData_window E req now = inr (toDate - 172800000, toDate)
       ∧ getDataMulti_window E req now = inr (toDate - 1296000000, toDate))
  ∧ (params req !! "to-date" = None →
     ∀ store format,
       getRequestedFormat E req ["json"; "csv"] "json" = Some format →
       format = "csv" ∨ format = "json" →
       MeasurementFind
         (getData_qry (template (params req !! "sensorId")) (now - 172800000) now)
         (Some queryLimit)
       ∈ getData E req now store)
  ∧ (params req !! "to-date" = None →
     ∀ store columns phenomenon sel exposure boxData sidecar,
       getDataMulti_columns req = inr columns →
       getDataMulti_phenomenon req = inr phenomenon →
       getDataMulti_selection req = inr sel →
       getDataMulti_exposure req = inr exposure →
       Box_find E {| bq_title := phenomenon; bq_selection := sel;
                     bq_exposure := exposure |} = inr boxData →
       build_sidecar phenomenon boxData = inr sidecar →
       MeasurementFind (getDataMulti_qry sidecar (now - 1296000000) now) None
       ∈ getDataMulti E req now store).
Proof.
  intros Hfrom.
  assert (Hw : ∀ before toDate, 0 < before →
            parseTimeParameter E req "to-date" now = inr toDate →
            time_window E before req now = inr (toDate - before, toDate)).
  { intros before toDate Hpos Hto. unfold time_window. rewrite Hto.
    rewrite (parseTimeParameter_omitted E req "from-date" _ Hfrom).
    rewrite validateTimeParameters_ok by lia. done. }
  assert (Hnow : params req !! "to-date" = None →
            getData_window E req now = inr (now - 172800000, now)
            ∧ getDataMulti_window E req now = inr (now - 1296000000, now)).
  { intros Hto. unfold getData_window, getDataMulti_window.
    rewrite !(Hw _ now); try done; by apply parseTimeParameter_omitted. }
  split; [done|]. split; [|split].
  - intros t toDate Hto Hp. unfold getData_window, getDataMulti_window.
    rewrite !(Hw _ toDate); try done; by apply (parseTimeParameter_given E req _ t).
  - intros Hto store format Hformat Hknown. destruct (Hnow Hto) as [Hsingle _].
    unfold getData. rewrite Hsingle, Hformat.
    destruct Hknown as [-> | ->]; cbn -[Measurement_find queryLimit csv_stream json_stream].
    + right. right. left.
    + destruct (bool_decide (params req !! "download" = Some "true"));
        cbn -[Measurement_find queryLimit csv_stream json_stream].
      * right. right. left.
      * right. left.
  - intros Hto store columns phenomenon sel exposure boxData sidecar Hc Hp Hs He Hb Hside.
    destruct (Hnow Hto) as [_ Hmulti].
    rewrite (getDataMulti_accepted E req now store _ _ _ _ _ _ _ Hmulti Hc Hp Hs He Hb).
    unfold getDataMulti_export. rewrite Hside. right. right. left.
Qed.

Lemma default_windows_witness :
  let req := Sample.request_of [("phenomenon", "Temperatur")] (Some "b1") None in
  params req !! "from-date" = None
  ∧ params req !! "to-date" = None
  ∧ getData_window Sample.env req 2000000000 = inr (1827200000, 2000000000)
  ∧ getDataMulti_window Sample.env req 2000000000 = inr (704000000, 2000000000).
Proof.
  intros req.
  assert (Hf : params req !! "from-date" = None) by (vm_compute; reflexivity).
  assert (Ht : params req !! "to-date" = None) by (vm_compute; reflexivity).
  split; [exact Hf|]. split; [exact Ht|].
  destruct (default_windows Sample.env req 2000000000 Hf) as [Hboth _].
  exact (Hboth Ht).
Defined.

(** ** CSV output *)

Section Csv.

Context (E : export_env).

Lemma accepted_rows (transform : obj → exn + obj) (rows : list obj) :
  (∀ r, r ∈ rows → ∃ d, transform r = inr d) →
  ∃ ds, Forall2 (fun r d => transform r = inr d) rows ds.
Proof.
  induction rows as [|r rows IH]; intros Hall.
  - exists []. constructor.
  - destruct (Hall r) as [d Hd]; [by left|].
    destruct IH as [ds Hds]; [intros r' Hr'; apply Hall; by right|].
    exists (d :: ds). by constructor.
Qed.

(** When the transform accepts every row, the CSV stream is the header
    followed by the record of each transformed row, in order. *)
Lemma csv_stream_accepted delim columns transform on_error rows ds :
  Forall2 (fun r d => transform r = inr d) rows ds →
  csv_stream E delim columns transform on_error rows
  = List.map Write (csv_header delim columns :: List.map (csv_record E delim columns) ds).
Proof.
  intros Hall. unfold csv_stream. simpl. f_equal.
  pose proof (pipe_accepted transform on_error (csv_record E delim columns)
                [] [] rows ds true Hall) as Hpipe.
  rewrite app_nil_r in Hpipe. rewrite Hpipe. simpl. rewrite app_nil_r.
  by rewrite List.map_map.
Qed.

Lemma written_Write (cs : list string) : written (List.map Write cs) = cs.
Proof.
  pose proof (written_writes cs []) as H. rewrite !app_nil_r in H. exact H.
Qed.

Lemma getData_transform_lean_row (m : measurement) :
  getData_transform E (lean_row m)
  = inr (<["createdAt" := VStr (toISOString E (m_createdAt m))]> (lean_row m)).
Proof. unfold getData_transform. by rewrite lean_row_createdAt. Qed.

(** The trace of [getData] once the window is resolved and CSV is chosen. *)
Lemma getData_csv req now store fromDate toDate :
  getData_window E req now = inr (fromDate, toDate) →
  getRequestedFormat E req ["json"; "csv"] "json" = Some "csv" →
  let sensorId := template (params req !! "sensorId") in
  let qry := getData_qry sensorId fromDate toDate in
  getData E req now store
  = ([ Header "Content-Type" "text/csv";
       Header "Content-Disposition" ("attachment; filename=" ++ sensorId ++ ".csv");
       MeasurementFind qry (Some queryLimit) ]
     ++ csv_stream E (getDelimiter E req) getData_columns (getData_transform E)
          (fun x => Next (Error InternalServerError (MessageOf x)))
          (List.map lean_row (Measurement_find qry (Some queryLimit) store)))%list.
Proof.
  intros Hw Hf. unfold getData. rewrite Hw, Hf. reflexivity.
Qed.

End Csv.

(** C7: the CSV written by an export is the header line of the column names
    followed by one line per row that the cursor delivers, so N + 1 lines for
    N rows, each line holding the fields of its row in the order of the
    column set: the requested or default columns for the multi-box export,
    createdAt and value for the single-sensor export. *)
Theorem csv_export_lines (E : export_env) :
  (∀ delim columns phenomenon fromDate toDate boxData store sidecar,
     build_sidecar phenomenon boxData = inr sidecar →
     let rows := getDataMulti_cursor sidecar fromDate toDate store in
     let out := written (getDataMulti_export E delim columns phenomenon
                           fromDate toDate boxData store) in
     length out = S (length rows)
     ∧ ∃ ds, Forall2 (fun r d => getDataMulti_transform E sidecar columns r = inr d) rows ds
             ∧ out = (String.concat delim columns ++ newline)
                     :: List.map (fun d =>
                          String.concat delim
                            (List.map (fun c => csv_field E delim (get d c)) columns)
                          ++ newline) ds)
  ∧ (∀ req now store fromDate toDate,
       getData_window E req now = inr (fromDate, toDate) →
       getRequestedFormat E req ["json"; "csv"] "json" = Some "csv" →
       let delim := getDelimiter E req in
       let found := Measurement_find
                      (getData_qry (template (params req !! "sensorId")) fromDate toDate)
                      (Some queryLimit) store in
       let out := written (getData E req now store) in
       length out = S (length found)
       ∧ out = (String.concat delim ["createdAt"; "value"] ++ newline)
               :: List.map (fun m =>
                    String.concat delim
                      [csv_field E delim (VStr (toISOString E (m_createdAt m)));
                       csv_field E delim (m_value m)]
                    ++ newline) found).
Proof.
  split.
  - intros delim columns phenomenon fromDate toDate boxData store sidecar Hside rows out.
    destruct (accepted_rows (getDataMulti_transform E sidecar columns) rows) as [ds Hds].
    { intros r Hr.
      destruct (getDataMulti_cursor_accepted E sidecar columns _ _ _ _ Hr)
        as (_ & d & _ & Hd & _). by exists d. }
    assert (Hout : out = csv_header delim columns
                         :: List.map (csv_record E delim columns) ds).
    { subst out. unfold getDataMulti_export. rewrite Hside.
      rewrite (csv_stream_accepted E delim columns _ _ rows ds Hds).
      change (?a :: ?b :: List.map Write ?cs) with ([a; b] ++ List.map Write cs)%list.
      unfold written. rewrite omap_app. simpl. f_equal. apply written_Write. }
    split.
    + rewrite Hout. simpl. rewrite length_map. f_equal.
      symmetry. by apply Forall2_length in Hds.
    + exists ds. split; [done|]. exact Hout.
  - intros req now store fromDate toDate Hw Hf delim found out.
    assert (Hds : Forall2 (fun r d => getData_transform E r = inr d)
                    (List.map lean_row found)
                    (List.map (fun m => <["createdAt" := VStr (toISOString E (m_createdAt m))]>
                                          (lean_row m)) found)).
    { induction found as [|m ms IH]; simpl; constructor; [|done].
      apply getData_transform_lean_row. }
    assert (Hout : out = csv_header delim getData_columns
                         :: List.map (csv_record E delim getData_columns)
                              (List.map (fun m => <["createdAt" := VStr (toISOString E (m_createdAt m))]>
                                                    (lean_row m)) found)).
    { subst out. rewrite (getData_csv E req now store fromDate toDate Hw Hf).
      rewrite (csv_stream_accepted E _ _ _ _ _ _ Hds).
      unfold written. rewrite omap_app. simpl. f_equal. apply written_Write. }
    split.
    + rewrite Hout. simpl. by rewrite !length_map.
    + rewrite Hout. unfold csv_header, getData_columns. f_equal.
      rewrite List.map_map. apply List.map_ext. intros m.
      unfold csv_record. simpl. rewrite get_insert_eq.
      rewrite get_insert_ne by done. unfold lean_row. by rewrite get_insert_eq.
Qed.

Lemma csv_export_lines_witness :
  build_sidecar "Temperatur" [Sample.station] = inr Sample.sidecar
  ∧ length (written (getDataMulti_export Sample.env "," ["createdAt"; "value"; "lat"]
                       "Temperatur" 5 50 [Sample.station]
                       [Sample.reading 5; Sample.reading 6; Sample.reading 7;
                        Sample.reading 50])) = 3%nat.
Proof.
  assert (Hside : build_sidecar "Temperatur" [Sample.station] = inr Sample.sidecar)
    by (vm_compute; reflexivity).
  split; [exact Hside|].
  destruct (csv_export_lines Sample.env) as [Hmulti _].
  destruct (Hmulti "," ["createdAt"; "value"; "lat"] "Temperatur" 5 50 [Sample.station]
              [Sample.reading 5; Sample.reading 6; Sample.reading 7; Sample.reading 50]
              Sample.sidecar Hside) as [Hlen _].
  rewrite Hlen. vm_compute; reflexivity.
Defined.

(** ** Ingestion *)

(** C8: when the decoder chosen for the request throws, either ingestion
    handler answers with the UnprocessableEntity error that carries the
    decoder's message and does nothing else; a box lookup or a save appears
    in the effects of a handler only after its decoder has returned a
    sequence of measurements. *)
Theorem decode_failure_stores_nothing (I : ingest_env) (req : post_request I) :
  (∀ handler message,
     decodeHandlers I (toLowerCase (contentType req)) = Some handler →
     handler (post_body req) = inl message →
     postNewMeasurements I req = [Next (Error UnprocessableEntityError (Msg message))])
  ∧ (∀ jsonHandler message,
       decodeHandlers I "json" = Some jsonHandler →
       jsonHandler (array_of I [single_measurement req]) = inl message →
       postNewMeasurement I req = [Next (Error UnprocessableEntityError (Msg message))])
  ∧ (∀ ev, ev ∈ postNewMeasurements I req → is_storage ev = true →
           ∃ handler measurements,
             decodeHandlers I (toLowerCase (contentType req)) = Some handler
             ∧ handler (post_body req) = inr measurements)
  ∧ (∀ ev, ev ∈ postNewMeasurement I req → is_storage ev = true →
           ∃ jsonHandler measurements,
             decodeHandlers I "json" = Some jsonHandler
             ∧ jsonHandler (array_of I [single_measurement req]) = inr measurements).
Proof.
  split; [|split; [|split]].
  - intros handler message Hh Hfail. unfold postNewMeasurements. by rewrite Hh, Hfail.
  - intros jsonHandler message Hh Hfail. unfold postNewMeasurement. simpl.
    by rewrite Hh, Hfail.
  - intros ev Hev Hst. unfold postNewMeasurements in Hev.
    destruct (decodeHandlers I (toLowerCase (contentType req))) as [handler|].
    + destruct (handler (post_body req)) as [message|measurements] eqn:Hdec.
      * apply list_elem_of_singleton in Hev. by subst ev.
      * by exists handler, measurements.
    + apply list_elem_of_singleton in Hev. by subst ev.
  - intros ev Hev Hst. unfold postNewMeasurement in Hev. simpl in Hev.
    destruct (decodeHandlers I "json") as [jsonHandler|].
    + destruct (jsonHandler (array_of I [single_measurement req]))
        as [message|measurements] eqn:Hdec.
      * apply list_elem_of_singleton in Hev. by subst ev.
      * by exists jsonHandler, measurements.
    + apply list_elem_of_singleton in Hev. by subst ev.
Qed.

Lemma decode_failure_stores_nothing_witness :
  (∃ handler, decodeHandlers Sample.ingest (toLowerCase (contentType Sample.empty_post))
              = Some handler
              ∧ handler (post_body Sample.empty_post) = inl "empty body")
  ∧ postNewMeasurements Sample.ingest Sample.empty_post
    = [Next (Error UnprocessableEntityError (Msg "empty body"))]
  ∧ postNewMeasurement Sample.ingest Sample.empty_post
    = [Next (Error UnprocessableEntityError (Msg "empty body"))].
Proof.
  destruct (decode_failure_stores_nothing Sample.ingest Sample.empty_post)
    as (Hmany & Hone & _ & _).
  split; [|split].
  - eexists. split; vm_compute; reflexivity.
  - eapply Hmany; vm_compute; reflexivity.
  - eapply Hone; vm_compute; reflexivity.
Defined.

(** ** Window bounds of the two exports *)



(** ** Coordinates *)

Section Sidecar.

Implicit Types (b : box) (s : sensor) (acc sidecar : gmap string obj).

Lemma sidecar_of_sensors_entries phenomenon b : ∀ ss acc sidecar,
  sidecar_of_sensors phenomenon b ss acc = inr sidecar →
  ∀ k entry, sidecar !! k = Some entry →
    acc !! k = Some entry
    ∨ ∃ s, s ∈ ss ∧ sensor_id s = k ∧ has_title phenomenon s = true
           ∧ sidecar_entry b s = inr entry.
Proof.
  induction ss as [|s rest IH]; intros acc sidecar Hbuild k entry Hk; simpl in Hbuild.
  - inversion Hbuild; subst. by left.
  - destruct (has_title phenomenon s) eqn:Htitle.
    + destruct (sidecar_entry b s) as [x|e] eqn:Hentry; [done|].
      destruct (IH _ _ Hbuild k entry Hk) as [Hacc | (s' & Hin & Hrest)].
      * destruct (decide (sensor_id s = k)) as [Heq|Hne].
        -- subst k. rewrite lookup_insert_eq in Hacc. inversion Hacc; subst e.
           right. exists s. split; [by left | done].
        -- rewrite lookup_insert_ne in Hacc by done. by left.
      * right. exists s'. split; [by right | done].
    + destruct (IH _ _ Hbuild k entry Hk) as [Hacc | (s' & Hin & Hrest)]; [by left|].
      right. exists s'. split; [by right | done].
Qed.

Lemma sidecar_of_boxes_entries phenomenon : ∀ boxData acc sidecar,
  sidecar_of_boxes phenomenon boxData acc = inr sidecar →
  ∀ k entry, sidecar !! k = Some entry →
    acc !! k = Some entry
    ∨ ∃ b s, b ∈ boxData ∧ s ∈ sensors b ∧ sensor_id s = k
             ∧ has_title phenomenon s = true ∧ sidecar_entry b s = inr entry.
Proof.
  induction boxData as [|b rest IH]; intros acc sidecar Hbuild k entry Hk;
    simpl in Hbuild.
  - inversion Hbuild; subst. by left.
  - destruct (sidecar_of_sensors phenomenon b (sensors b) acc) as [x|acc'] eqn:Hb; [done|].
    destruct (IH _ _ Hbuild k entry Hk) as [Hacc | (b' & s & Hin & Hrest)].
    + destruct (sidecar_of_sensors_entries _ _ _ _ _ Hb k entry Hacc)
        as [Hold | (s & Hin & Hrest)]; [by left|].
      right. exists b, s. split; [by left | done].
    + right. exists b', s. split; [by right | done].
Qed.

(** Every Sidecar Entry was made from a box of the selection and one of its
    sensors with the requested title. *)
Lemma build_sidecar_entries phenomenon boxData sidecar k entry :
  build_sidecar phenomenon boxData = inr sidecar →
  sidecar !! k = Some entry →
  ∃ b s, b ∈ boxData ∧ s ∈ sensors b ∧ sensor_id s = k
         ∧ has_title phenomenon s = true ∧ sidecar_entry b s = inr entry.
Proof.
  intros Hbuild Hk.
  destruct (sidecar_of_boxes_entries _ _ _ _ Hbuild k entry Hk) as [Hacc|H]; [|done].
  by rewrite lookup_empty in Hacc.
Qed.

Lemma sidecar_entry_coordinates b s entry :
  sidecar_entry b s = inr entry →
  ∃ l0, head (loc b) = Some l0
        ∧ get entry "lat" = index (coordinates l0) 0
        ∧ get entry "lng" = index (coordinates l0) 1.
Proof.
  unfold sidecar_entry. destruct (loc b) as [|l0 rest]; [done|].
  intros [= <-]. exists l0. split; [done|]. split.
  - rewrite !get_insert_ne by done. apply get_insert_eq.
  - rewrite !get_insert_ne by done. apply get_insert_eq.
Qed.

Lemma json_element_number (E : export_env) (a : list value) :
  Forall (fun v => is_number v = true) a → List.map (json_element E) a = a.
Proof.
  induction 1 as [|v a Hv _ IH]; simpl; [done|]. rewrite IH. by destruct v.
Qed.

End Sidecar.

(** C10: every Sidecar Entry of the multi-box export comes from a box of the
    selection and takes its lat from [loc[0].geometry.coordinates[0]] and its
    lng from [coordinates[1]], and these are the values the export writes in
    the lat and lng columns of the rows of that sensor; the geojson view of
    [findBox] takes lat from [coordinates[1]] and lng from [coordinates[0]]
    of the same box.  For numeric coordinates the pair of the export is
    therefore the pair of the single-box view with its components swapped. *)
Theorem sidecar_coordinates_swapped (E : export_env) (phenomenon : string)
    (boxData : list box) (sidecar : gmap string obj) (k : string) (entry : obj) :
  build_sidecar phenomenon boxData = inr sidecar →
  sidecar !! k = Some entry →
  (∃ b l0 p,
     b ∈ boxData
     ∧ (∃ s, s ∈ sensors b ∧ sensor_id s = k)
     ∧ head (loc b) = Some l0
     ∧ get entry "lat" = index (coordinates l0) 0
     ∧ get entry "lng" = index (coordinates l0) 1
     ∧ findBox_point E b = inr p
     ∧ lat p = index (List.map (json_element E) (coordinates l0)) 1
     ∧ lng p = index (List.map (json_element E) (coordinates l0)) 0
     ∧ (Forall (fun v => is_number v = true) (coordinates l0) →
        get entry "lat" = lng p ∧ get entry "lng" = lat p))
  ∧ (∀ columns fromDate toDate store m d,
       lean_row_with_sensor m ∈ getDataMulti_cursor sidecar fromDate toDate store →
       m_sensor_id m = k →
       getDataMulti_transform E sidecar columns (lean_row_with_sensor m) = inr d →
       ("lat" ∈ columns → get d "lat" = get entry "lat")
       ∧ ("lng" ∈ columns → get d "lng" = get entry "lng")).
Proof.
  intros Hbuild Hk. split.
  - destruct (build_sidecar_entries _ _ _ _ _ Hbuild Hk)
      as (b & s & Hb & Hs & Hid & _ & Hentry).
    destruct (sidecar_entry_coordinates _ _ _ Hentry) as (l0 & Hloc & Hlat & Hlng).
    exists b, l0.
    exists {| lat := index (List.map (json_element E) (coordinates l0)) 1;
              lng := index (List.map (json_element E) (coordinates l0)) 0 |}.
    split; [done|]. split; [by exists s|]. split; [done|].
    split; [done|]. split; [done|]. split.
    { unfold findBox_point. destruct (loc b) as [|l rest]; [done|].
      simpl in Hloc. by inversion Hloc. }
    split; [done|]. split; [done|].
    intros Hnum. simpl. rewrite (json_element_number E _ Hnum). done.
  - intros columns fromDate toDate store m d Hrow Hid Hd.
    destruct (getDataMulti_cursor_accepted E sidecar columns _ _ _ _ Hrow)
      as (entry' & d' & He & Hd' & Hget).
    rewrite Hd in Hd'. inversion Hd'; subst d'.
    rewrite lean_row_with_sensor_id in He. simpl in He. rewrite Hid, Hk in He.
    inversion He; subst entry'.
    assert (Hmissing : ∀ c, c ≠ "sensor_id" → c ≠ "value" → c ≠ "createdAt" →
              c ∈ columns → get d c = get entry c).
    { intros c H1 H2 H3 Hin. rewrite Hget.
      rewrite (bool_decide_eq_true_2 _ Hin).
      rewrite normalize_createdAt_other by done.
      by rewrite lean_row_with_sensor_other. }
    split; intros Hin; by apply Hmissing.
Qed.

Lemma sidecar_coordinates_swapped_witness :
  build_sidecar "Temperatur" [Sample.station] = inr Sample.sidecar
  ∧ ∃ entry, Sample.sidecar !! "a1" = Some entry
    ∧ ∃ b l0 p, b ∈ [Sample.station]
        ∧ head (loc b) = Some l0
        ∧ findBox_point Sample.env b = inr p
        ∧ get entry "lat" = index (coordinates l0) 0
        ∧ lat p = index (List.map (json_element Sample.env) (coordinates l0)) 1.
Proof.
  assert (Hside : build_sidecar "Temperatur" [Sample.station] = inr Sample.sidecar)
    by (vm_compute; reflexivity).
  split; [exact Hside|].
  destruct (Sample.sidecar !! "a1") as [entry|] eqn:Hentry;
    [|vm_compute in Hentry; discriminate].
  exists entry. split; [reflexivity|].
  destruct (sidecar_coordinates_swapped Sample.env "Temperatur" [Sample.station]
              Sample.sidecar "a1" entry Hside Hentry)
    as [(b & l0 & p & Hb & _ & Hloc & Hlat & _ & Hp & Hplat & _) _].
  exists b, l0, p. repeat (split; [assumption|]). assumption.
Defined.

(** * Further properties of the handlers *)

(** ** Splitting and trimming *)

Section Text.

Implicit Types (s : string) (sep c : ascii).

Lemma split_not_nil sep s : split sep s ≠ [].
Proof.
  destruct s as [|c r]; simpl; [done|].
  destruct (Ascii.eqb c sep); [done|]. by destruct (split sep r).
Qed.

Lemma concat_cons_cons (d x y : string) (l : list string) :
  String.concat d (x :: y :: l) = x ++ d ++ String.concat d (y :: l).
Proof. reflexivity. Qed.

(** Joining the pieces with the separator gives the text back. *)
Lemma concat_split sep s :
  String.concat (String sep EmptyString) (split sep s) = s.
Proof.
  induction s as [|c r IH]; simpl; [done|].
  destruct (Ascii.eqb c sep) eqn:Hc.
  - apply Ascii.eqb_eq in Hc. subst c.
    destruct (split sep r) as [|h t] eqn:Hr; [by apply split_not_nil in Hr|].
    rewrite concat_cons_cons, IH. reflexivity.
  - destruct (split sep r) as [|h t] eqn:Hr; [by apply split_not_nil in Hr|].
    destruct t as [|h' t].
    + simpl in *. by rewrite IH.
    + rewrite concat_cons_cons in IH. rewrite concat_cons_cons.
      rewrite <- IH. reflexivity.
Qed.

(** No piece contains the separator. *)
Lemma split_no_char sep s : Forall (fun p => no_char sep p = true) (split sep s).
Proof.
  induction s as [|c r IH]; simpl; [by repeat constructor|].
  destruct (Ascii.eqb c sep) eqn:Hc.
  - by constructor.
  - destruct (split sep r) as [|h t]; [repeat constructor; simpl; by rewrite Hc|].
    inversion IH; subst. constructor; [|done]. simpl. by rewrite Hc.
Qed.

(** A text without the separator is a single piece, and the first separator
    ends the first piece. *)
Lemma split_no_sep sep s : no_char sep s = true → split sep s = [s].
Proof.
  induction s as [|c r IH]; simpl; [done|].
  intros [Hc Hr]%andb_true_iff. apply negb_true_iff in Hc. rewrite Hc.
  by rewrite (IH Hr).
Qed.

Lemma split_app sep a b :
  no_char sep a = true →
  split sep (a ++ String sep b) = a :: split sep b.
Proof.
  induction a as [|c r IH]; simpl.
  - intros _. by rewrite Ascii.eqb_refl.
  - intros [Hc Hr]%andb_true_iff. apply negb_true_iff in Hc. rewrite Hc.
    by rewrite (IH Hr).
Qed.








End Text.

(** ** More on the request checks of the multi-box export *)

(** A columns parameter that passes the check is used verbatim: the column
    list, joined with commas, is the parameter, so the CSV header under the
    comma delimiter is the parameter itself; every column is in the
    allow-list and none contains a comma. *)
Theorem requested_columns_verbatim (req : request) (p : string)
    (columns : list string) :
  params req !! "columns" = Some p →
  trim p ≠ "" →
  getDataMulti_columns req = inr columns →
  String.concat "," columns = p
  ∧ csv_header "," columns = p ++ newline
  ∧ Forall (fun c => c ∈ GET_DATA_MULTI_ALLOWED_COLUMNS) columns
  ∧ Forall (fun c => no_char comma c = true) columns.
Proof.
  intros Hp Hne Hcols.
  pose proof (getDataMulti_columns_allowed req columns Hcols) as Hallowed.
  unfold getDataMulti_columns in Hcols. rewrite Hp in Hcols.
  apply String.eqb_neq in Hne. rewrite Hne in Hcols. cbn [negb] in Hcols.
  destruct (some _ (split comma p)); [done|]. inversion Hcols; subst columns.
  assert (Hjoin : String.concat "," (split comma p) = p) by apply (concat_split comma).
  split; [done|]. split; [unfold csv_header; by rewrite Hjoin|].
  split; [done | apply split_no_char].
Qed.

Lemma requested_columns_verbatim_witness :
  let req := Sample.request_of [("columns", "value,boxName,createdAt")] None None in
  params req !! "columns" = Some "value,boxName,createdAt"
  ∧ getDataMulti_columns req = inr ["value"; "boxName"; "createdAt"]
  ∧ csv_header "," ["value"; "boxName"; "createdAt"]
    = "value,boxName,createdAt" ++ newline.
Proof.
  intros req.
  assert (Hp : params req !! "columns" = Some "value,boxName,createdAt")
    by (vm_compute; reflexivity).
  assert (Hc : getDataMulti_columns req = inr ["value"; "boxName"; "createdAt"])
    by (vm_compute; reflexivity).
  split; [exact Hp|]. split; [exact Hc|].
  destruct (requested_columns_verbatim req "value,boxName,createdAt"
              ["value"; "boxName"; "createdAt"] Hp) as (_ & Hheader & _);
    [vm_compute; discriminate | exact Hc | exact Hheader].
Defined.





(** The selection that reaches the box query is the box-id parameter cut at
    its commas (joined again it is the parameter, and no id contains a
    comma), or the ring of the bounding box: five points, the first corner
    repeated at the end. *)
Theorem selection_from_request (req : request) (sel : selection) :
  getDataMulti_selection req = inr sel →
  match sel with
  | ByIds ids =>
      ∃ s, boxId req = Some s ∧ s ≠ "" ∧ bbox req = None
           ∧ String.concat "," ids = s
           ∧ Forall (fun id => no_char comma id = true) ids
  | ByPolygon ring =>
      ∃ b, bbox req = Some b ∧ given_boxId req = false
           ∧ ring = [ (index b 0, index b 1); (index b 0, index b 3);
                      (index b 2, index b 3); (index b 2, index b 1);
                      (index b 0, index b 1) ]
           ∧ head ring = last ring
  end.
Proof.
  unfold getDataMulti_selection, given_boxId, given_bbox.
  destruct (boxId req) as [s|] eqn:Hs; destruct (bbox req) as [b|] eqn:Hb; simpl.
  - destruct (String.eqb s "") eqn:He; simpl; [|done].
    intros [= <-]. by exists b.
  - destruct (String.eqb s "") eqn:He; simpl; [done|].
    intros [= <-]. exists s. apply String.eqb_neq in He.
    split; [done|]. split; [done|]. split; [done|].
    split; [apply (concat_split comma) | apply split_no_char].
  - intros [= <-]. by exists b.
  - done.
Qed.

Lemma selection_from_request_witness :
  let req := Sample.request_of [] (Some "b1,b2") None in
  getDataMulti_selection req = inr (ByIds ["b1"; "b2"])
  ∧ String.concat "," ["b1"; "b2"] = "b1,b2".
Proof.
  intros req.
  assert (Hsel : getDataMulti_selection req = inr (ByIds ["b1"; "b2"]))
    by (vm_compute; reflexivity).
  split; [exact Hsel|].
  destruct (selection_from_request req _ Hsel) as (s & Hs & _ & _ & Hjoin & _).
  rewrite Hjoin. vm_compute in Hs. by inversion Hs.
Defined.

(** ** The shape of the export traces *)

Section Traces.

Context (E : export_env).

(** Rows that are all accepted are all written, then the stream is closed. *)
Lemma pipe_all_accepted (transform : obj → exn + obj) (render : bool → obj → string)
    (on_error : exn → event) (close : list event) : ∀ rows ds first,
  Forall2 (fun r d => transform r = inr d) rows ds →
  pipe transform render on_error close first rows
  = (List.map Write
       (match ds with
        | [] => []
        | d :: rest => render first d :: List.map (render false) rest
        end)
     ++ close)%list.
Proof.
  induction rows as [|r rows IH]; intros ds first Hall.
  - apply Forall2_nil_inv_l in Hall. by subst ds.
  - apply Forall2_cons_inv_l in Hall as (d & ds' & Hd & Hall & ->).
    simpl. rewrite Hd. f_equal. rewrite (IH ds' false Hall).
    by destruct ds'.
Qed.

(** The lean rows of the single-sensor export are all accepted by its
    transform. *)
Lemma getData_rows_accepted (found : list measurement) :
  Forall2 (fun r d => getData_transform E r = inr d)
    (List.map lean_row found)
    (List.map (fun m => <["createdAt" := VStr (toISOString E (m_createdAt m))]>
                          (lean_row m)) found).
Proof.
  induction found as [|m ms IH]; simpl; constructor; [|done].
  apply getData_transform_lean_row.
Qed.

Lemma getDataMulti_rows_accepted (sidecar : gmap string obj) columns fromDate toDate store :
  ∃ ds, Forall2 (fun r d => getDataMulti_transform E sidecar columns r = inr d)
          (getDataMulti_cursor sidecar fromDate toDate store) ds.
Proof.
  apply accepted_rows. intros r Hr.
  destruct (getDataMulti_cursor_accepted E sidecar columns _ _ _ _ Hr)
    as (_ & d & _ & Hd & _). by exists d.
Qed.

End Traces.

(** Every run of [getDataMulti] has one of three shapes: a single call of
    [next] (a check failed, nothing was read); the box query followed by a
    single call of [next] (the query or the Sidecar failed, no measurement
    was read and no header set); or the box query, the text/csv header, the
    measurement query and then only written lines, the header line first and
    one line per row of the cursor.  Once the header is set, [next] is never
    called. *)
Theorem getDataMulti_trace_shape (E : export_env) (req : request) (now : Z)
    (store : list measurement) :
  (∃ e, getDataMulti E req now store = [Next e])
  ∨ (∃ q e, getDataMulti E req now store = [BoxFind q; Next e])
  ∨ (∃ q sidecar fromDate toDate columns lines,
       getDataMulti E req now store
       = BoxFind q
         :: Header "Content-Type" "text/csv"
         :: MeasurementFind (getDataMulti_qry sidecar fromDate toDate) None
         :: List.map Write (csv_header (getDelimiter E req) columns :: lines)
       ∧ fromDate < toDate
       ∧ getDataMulti_columns req = inr columns
       ∧ length lines = length (getDataMulti_cursor sidecar fromDate toDate store)).
Proof.
  unfold getDataMulti.
  destruct (getDataMulti_window E req now) as [e|[f t]] eqn:Hw; [left; eauto|].
  destruct (getDataMulti_columns req) as [e|columns] eqn:Hc; [left; eauto|].
  destruct (getDataMulti_phenomenon req) as [e|phenomenon]; [left; eauto|].
  destruct (getDataMulti_selection req) as [e|sel]; [left; eauto|].
  destruct (getDataMulti_exposure req) as [e|exposure]; [left; eauto|].
  right.
  destruct (Box_find E _) as [x|boxData]; [left; eauto|].
  unfold getDataMulti_export.
  destruct (build_sidecar phenomenon boxData) as [x|sidecar]; [left; eauto|].
  right.
  destruct (getDataMulti_rows_accepted E sidecar columns f t store) as [ds Hds].
  exists {| bq_title := phenomenon; bq_selection := sel; bq_exposure := exposure |},
    sidecar, f, t, columns, (List.map (csv_record E (getDelimiter E req) columns) ds).
  split; [|split; [|split]].
  - by rewrite (csv_stream_accepted E _ _ _ _ _ ds Hds).
  - by apply (time_window_valid E (days 15) req now).
  - done.
  - rewrite length_map. symmetry. by apply Forall2_length in Hds.
Qed.

(** Every run of [getData] has one of three shapes: a single call of [next]
    (window or format refused, nothing read); an uncaught exception when the
    format is neither csv nor json; or the Content-Type header, at most one
    Content-Disposition header, the measurement query limited to
    [queryLimit] and then only written chunks.  Once the header is set,
    [next] is never called. *)
Theorem getData_trace_shape (E : export_env) (req : request) (now : Z)
    (store : list measurement) :
  (∃ e, getData E req now store = [Next e])
  ∨ (∃ x, getData E req now store = [Uncaught x])
  ∨ (∃ content disposition q chunks,
       getData E req now store
       = (Header "Content-Type" content :: disposition
          ++ MeasurementFind q (Some queryLimit) :: List.map Write chunks)%list
       ∧ (disposition = [] ∨ ∃ v, disposition = [Header "Content-Disposition" v])
       ∧ (length (Measurement_find q (Some queryLimit) store) < length chunks)%nat).
Proof.
  unfold getData.
  destruct (getData_window E req now) as [e|[f t]]; [left; eauto|].
  destruct (getRequestedFormat E req ["json"; "csv"] "json") as [format|];
    [|left; eauto].
  destruct (String.eqb format "csv") eqn:Hcsv; cbn [orb negb app].
  - right. right.
    rewrite (csv_stream_accepted E _ _ _ _ _ _ (getData_rows_accepted E _)).
    exists "text/csv",
      [Header "Content-Disposition"
         ("attachment; filename=" ++ template (params req !! "sensorId")
          ++ "." ++ format)],
      (getData_qry (template (params req !! "sensorId")) f t).
    eexists. split; [reflexivity|]. split; [right; eexists; reflexivity|].
    simpl. rewrite !length_map. lia.
  - destruct (String.eqb format "json") eqn:Hjson; cbn [orb negb app];
      [|right; left; eauto].
    right. right.
    set (q := getData_qry (template (params req !! "sensorId")) f t).
    set (found := Measurement_find q (Some queryLimit) store).
    pose proof (pipe_all_accepted (getData_transform E)
                  (fun first d => if first then JSON_stringify E d
                                  else "," ++ JSON_stringify E d)
                  (fun x => Next (Error InternalServerError (MessageOf x)))
                  [Write "]"] _ _ true (getData_rows_accepted E found)) as Hpipe.
    unfold json_stream. rewrite Hpipe.
    change [Write "]"] with (List.map Write ["]"]).
    rewrite <- List.map_app.
    change (Write "[" :: List.map Write ?l) with (List.map Write ("[" :: l)).
    destruct (bool_decide (params req !! "download" = Some "true")).
    + exists "application/json; charset=utf-8",
        [Header "Content-Disposition"
           ("attachment; filename=" ++ template (params req !! "sensorId")
            ++ "." ++ format)], q.
      eexists. split; [reflexivity|]. split; [right; eexists; reflexivity|].
      change (Measurement_find q (Some queryLimit) store) with found.
      clearbody found. clear Hpipe.
      destruct found as [|m ms]; simpl; [lia|].
      rewrite length_app, !length_map. simpl. lia.
    + exists "application/json; charset=utf-8", [], q.
      eexists. split; [reflexivity|]. split; [by left|].
      change (Measurement_find q (Some queryLimit) store) with found.
      clearbody found. clear Hpipe.
      destruct found as [|m ms]; simpl; [lia|].
      rewrite length_app, !length_map. simpl. lia.
Qed.

(** ** More on the Sidecar *)

Section SidecarContents.

Implicit Types (b : box) (s : sensor) (acc sidecar : gmap string obj).

Lemma sidecar_of_sensors_keeps phenomenon b : ∀ ss acc sidecar,
  sidecar_of_sensors phenomenon b ss acc = inr sidecar →
  (∀ k, is_Some (acc !! k) → is_Some (sidecar !! k))
  ∧ (∀ s, s ∈ ss → has_title phenomenon s = true → is_Some (sidecar !! sensor_id s)).
Proof.
  induction ss as [|s rest IH]; intros acc sidecar Hbuild; simpl in Hbuild.
  - inversion Hbuild; subst. split; [done|]. intros s Hs. by apply elem_of_nil in Hs.
  - destruct (has_title phenomenon s) eqn:Htitle.
    + destruct (sidecar_entry b s) as [x|e]; [done|].
      destruct (IH _ _ Hbuild) as [Hkeep Hnew]. split.
      * intros k Hk. apply Hkeep. rewrite lookup_insert_is_Some.
        destruct (decide (sensor_id s = k)); [by left | by right].
      * intros s' [->|Hin]%elem_of_cons Ht; [|by apply Hnew].
        apply Hkeep. rewrite lookup_insert_is_Some. by left.
    + destruct (IH _ _ Hbuild) as [Hkeep Hnew]. split; [done|].
      intros s' [->|Hin]%elem_of_cons Ht; [congruence | by apply Hnew].
Qed.

Lemma sidecar_of_boxes_keeps phenomenon : ∀ boxData acc sidecar,
  sidecar_of_boxes phenomenon boxData acc = inr sidecar →
  (∀ k, is_Some (acc !! k) → is_Some (sidecar !! k))
  ∧ (∀ b s, b ∈ boxData → s ∈ sensors b → has_title phenomenon s = true →
            is_Some (sidecar !! sensor_id s)).
Proof.
  induction boxData as [|b rest IH]; intros acc sidecar Hbuild; simpl in Hbuild.
  - inversion Hbuild; subst. split; [done|]. intros b s Hb. by apply elem_of_nil in Hb.
  - destruct (sidecar_of_sensors phenomenon b (sensors b) acc) as [x|acc'] eqn:Hb; [done|].
    destruct (sidecar_of_sensors_keeps _ _ _ _ _ Hb) as [Hkeep1 Hnew1].
    destruct (IH _ _ Hbuild) as [Hkeep Hnew]. split.
    + intros k Hk. by apply Hkeep, Hkeep1.
    + intros b' s [->|Hin]%elem_of_cons Hs Ht.
      * by apply Hkeep, Hnew1.
      * by apply (Hnew b').
Qed.

(** The loops fail exactly on a box that has a sensor of the requested title
    and no location. *)
Lemma sidecar_of_sensors_fails phenomenon b : ∀ ss acc,
  (∃ x, sidecar_of_sensors phenomenon b ss acc = inl x)
  ↔ loc b = [] ∧ ∃ s, s ∈ ss ∧ has_title phenomenon s = true.
Proof.
  induction ss as [|s rest IH]; intros acc; simpl.
  - split; [by intros [x Hx] | intros (_ & s & Hs & _); by apply elem_of_nil in Hs].
  - destruct (has_title phenomenon s) eqn:Htitle.
    + unfold sidecar_entry. destruct (loc b) as [|l0 ls] eqn:Hloc.
      * split; [|eauto]. intros _. split; [done|]. exists s. split; [by left|done].
      * rewrite IH. split; [by intros [? _] | by intros [? _]].
    + rewrite IH. split.
      * intros (Hloc & s' & Hin & Ht). split; [done|]. exists s'. split; [by right|done].
      * intros (Hloc & s' & [->|Hin]%elem_of_cons & Ht); [congruence|]. eauto.
Qed.

Lemma sidecar_of_boxes_fails phenomenon : ∀ boxData acc,
  (∃ x, sidecar_of_boxes phenomenon boxData acc = inl x)
  ↔ ∃ b s, b ∈ boxData ∧ loc b = [] ∧ s ∈ sensors b ∧ has_title phenomenon s = true.
Proof.
  induction boxData as [|b rest IH]; intros acc; simpl.
  - split; [by intros [x Hx] | intros (b & s & Hb & _); by apply elem_of_nil in Hb].
  - destruct (sidecar_of_sensors phenomenon b (sensors b) acc) as [x|acc'] eqn:Hb.
    + split; [|eauto]. intros _.
      destruct (proj1 (sidecar_of_sensors_fails phenomenon b (sensors b) acc))
        as (Hloc & s & Hs & Ht); [eauto|].
      exists b, s. split; [by left | done].
    + rewrite IH. split.
      * intros (b' & s & Hin & H). exists b', s. split; [by right | done].
      * intros (b' & s & [->|Hin]%elem_of_cons & Hloc & Hs & Ht); [|eauto 10].
        assert (Hfail : ∃ x, sidecar_of_sensors phenomenon b (sensors b) acc = inl x).
        { apply sidecar_of_sensors_fails. eauto. }
        destruct Hfail as [x Hx]. congruence.
Qed.

Lemma sidecar_entry_fields b s entry :
  sidecar_entry b s = inr entry →
  get entry "sensorId" = VStr (sensor_id s)
  ∧ get entry "boxId" = VStr (box_id b)
  ∧ get entry "boxName" = box_name b
  ∧ get entry "exposure" = box_exposure b
  ∧ get entry "phenomenon" = get (sensor_object s) "title"
  ∧ (∀ c, c ∉ ["lat"; "lng"; "boxId"; "boxName"; "exposure"; "sensorId"; "phenomenon"] →
          get entry c = get (sensor_object s) c).
Proof.
  unfold sidecar_entry. destruct (loc b) as [|l0 rest]; [done|]. intros [= <-].
  repeat split.
  - rewrite get_insert_ne by done. apply get_insert_eq.
  - rewrite !get_insert_ne by done. apply get_insert_eq.
  - rewrite !get_insert_ne by done. apply get_insert_eq.
  - rewrite !get_insert_ne by done. apply get_insert_eq.
  - rewrite get_insert_eq. by rewrite !get_insert_ne.
  - intros c Hc. rewrite !get_insert_ne; [done|..];
      intros <-; apply Hc; repeat (first [by left | right]).
Qed.

End SidecarContents.

(** When the Sidecar is built, its keys are exactly the ids of the sensors
    with the requested title in the boxes that were found. *)
Theorem sidecar_keys_exact (phenomenon : string) (boxData : list box)
    (sidecar : gmap string obj) (k : string) :
  build_sidecar phenomenon boxData = inr sidecar →
  k ∈ keys sidecar
  ↔ ∃ b s, b ∈ boxData ∧ s ∈ sensors b ∧ sensor_id s = k
           ∧ has_title phenomenon s = true.
Proof.
  intros Hbuild. rewrite keys_elem_of. split.
  - intros [entry Hentry].
    destruct (build_sidecar_entries _ _ _ _ _ Hbuild Hentry)
      as (b & s & Hb & Hs & Hid & Ht & _). by exists b, s.
  - intros (b & s & Hb & Hs & <- & Ht).
    destruct (sidecar_of_boxes_keeps _ _ _ _ Hbuild) as [_ Hnew]. by apply (Hnew b).
Qed.

Lemma sidecar_keys_exact_witness :
  build_sidecar "Temperatur" [Sample.station] = inr Sample.sidecar
  ∧ "a1" ∈ keys Sample.sidecar.
Proof.
  assert (Hside : build_sidecar "Temperatur" [Sample.station] = inr Sample.sidecar)
    by (vm_compute; reflexivity).
  split; [exact Hside|].
  apply (sidecar_keys_exact "Temperatur" [Sample.station] Sample.sidecar "a1" Hside).
  exists Sample.station, Sample.temperature.
  split; [by left|]. split; [by left|]. split; reflexivity.
Defined.

(** Every Sidecar Entry names its own key as sensorId and the requested
    phenomenon as phenomenon, carries the id, name and exposure of a box that
    was found, and keeps every other property of the sensor document (unit,
    sensorType, ...). *)
Theorem sidecar_entry_metadata (phenomenon : string) (boxData : list box)
    (sidecar : gmap string obj) (k : string) (entry : obj) :
  build_sidecar phenomenon boxData = inr sidecar →
  sidecar !! k = Some entry →
  get entry "sensorId" = VStr k
  ∧ get entry "phenomenon" = VStr phenomenon
  ∧ ∃ b s, b ∈ boxData ∧ s ∈ sensors b ∧ sensor_id s = k
           ∧ get entry "boxId" = VStr (box_id b)
           ∧ get entry "boxName" = box_name b
           ∧ get entry "exposure" = box_exposure b
           ∧ (∀ c, c ∉ ["_id"; "lat"; "lng"; "boxId"; "boxName"; "exposure";
                        "sensorId"; "phenomenon"] →
                   get entry c = get (attrs s) c).
Proof.
  intros Hbuild Hk.
  destruct (build_sidecar_entries _ _ _ _ _ Hbuild Hk)
    as (b & s & Hb & Hs & Hid & Ht & Hentry).
  destruct (sidecar_entry_fields _ _ _ Hentry)
    as (Hsid & Hbid & Hname & Hexp & Hphen & Hother).
  split; [by rewrite Hsid, Hid|]. split.
  - rewrite Hphen. unfold has_title in Ht.
    destruct (get (sensor_object s) "title") as [| | | | |t| |]; try done.
    apply String.eqb_eq in Ht. by subst t.
  - exists b, s. repeat (split; [done|]). intros c Hc.
    rewrite Hother.
    + unfold sensor_object. apply get_insert_ne. intros <-. apply Hc. by left.
    + intros Hin. apply Hc. by right.
Qed.

Lemma sidecar_entry_metadata_witness :
  build_sidecar "Temperatur" [Sample.station] = inr Sample.sidecar
  ∧ ∃ entry, Sample.sidecar !! "a1" = Some entry
             ∧ get entry "sensorId" = VStr "a1"
             ∧ get entry "phenomenon" = VStr "Temperatur".
Proof.
  assert (Hside : build_sidecar "Temperatur" [Sample.station] = inr Sample.sidecar)
    by (vm_compute; reflexivity).
  split; [exact Hside|].
  destruct (Sample.sidecar !! "a1") as [entry|] eqn:Hentry;
    [|vm_compute in Hentry; discriminate].
  exists entry. split; [reflexivity|].
  destruct (sidecar_entry_metadata "Temperatur" [Sample.station] Sample.sidecar "a1"
              entry Hside Hentry) as (Hid & Hphen & _).
  split; [exact Hid | exact Hphen].
Defined.

(** The Sidecar cannot be built exactly when a box that was found has a
    sensor of the requested title and no location; the export then only
    calls [next] with an InternalServerError: no header is set and no
    measurement is read.  A box without location whose sensors all carry
    other titles does no harm. *)
Theorem locationless_box_fails_export (E : export_env) (delim : string)
    (columns : list string) (phenomenon : string) (fromDate toDate : Z)
    (boxData : list box) (store : list measurement) :
  ((∃ b s, b ∈ boxData ∧ loc b = [] ∧ s ∈ sensors b ∧ has_title phenomenon s = true)
   → ∃ x, build_sidecar phenomenon boxData = inl x
          ∧ getDataMulti_export E delim columns phenomenon fromDate toDate boxData store
            = [Next (Error InternalServerError (JsonErrorsOf x))])
  ∧ ((∀ b s, b ∈ boxData → s ∈ sensors b → has_title phenomenon s = true → loc b ≠ [])
     → ∃ sidecar, build_sidecar phenomenon boxData = inr sidecar).
Proof.
  split.
  - intros Hbad.
    destruct (proj2 (sidecar_of_boxes_fails phenomenon boxData ∅) Hbad) as [x Hx].
    exists x. split; [done|]. unfold getDataMulti_export, build_sidecar. by rewrite Hx.
  - intros Hgood. unfold build_sidecar.
    destruct (sidecar_of_boxes phenomenon boxData ∅) as [x|sidecar] eqn:Hbuild; [|eauto].
    destruct (proj1 (sidecar_of_boxes_fails phenomenon boxData ∅))
      as (b & s & Hb & Hloc & Hs & Ht); [eauto|].
    by destruct (Hgood b s Hb Hs Ht).
Qed.

(** When no sensor of the boxes that were found carries the requested title
    (in particular when no box was found), the export succeeds with an empty
    Sidecar: it asks for the measurements of no sensor and writes the header
    line only, whatever is stored. *)
Theorem no_matching_sensor_header_only (E : export_env) (delim : string)
    (columns : list string) (phenomenon : string) (fromDate toDate : Z)
    (boxData : list box) (store : list measurement) :
  (∀ b s, b ∈ boxData → s ∈ sensors b → has_title phenomenon s = false) →
  getDataMulti_export E delim columns phenomenon fromDate toDate boxData store
  = [ Header "Content-Type" "text/csv";
      MeasurementFind {| mq_sensor_id := IdIn [];
                         mq_createdAt := [(Op_gt, fromDate); (Op_lt, toDate)] |} None;
      Write (csv_header delim columns) ].
Proof.
  intros Hnone.
  assert (Hsensors : ∀ b ss acc, (∀ s, s ∈ ss → has_title phenomenon s = false) →
            sidecar_of_sensors phenomenon b ss acc = inr acc).
  { intros b ss. induction ss as [|s rest IH]; intros acc Hss; simpl; [done|].
    rewrite (Hss s) by (by left). apply IH. intros s' Hs'. apply Hss. by right. }
  assert (Hboxes : ∀ bs acc, (∀ b s, b ∈ bs → s ∈ sensors b → has_title phenomenon s = false) →
            sidecar_of_boxes phenomenon bs acc = inr acc).
  { induction bs as [|b rest IH]; intros acc Hbs; simpl; [done|].
    rewrite Hsensors by (intros s Hs; apply (Hbs b); [by left | done]).
    apply IH. intros b' s Hb' Hs. apply (Hbs b'); [by right | done]. }
  unfold getDataMulti_export, build_sidecar. rewrite (Hboxes _ _ Hnone).
  assert (Hkeys : keys (∅ : gmap string obj) = [])
    by (unfold keys; by rewrite map_to_list_empty).
  unfold getDataMulti_cursor, getDataMulti_qry. rewrite Hkeys.
  assert (Hempty : Measurement_find
                     {| mq_sensor_id := IdIn [];
                        mq_createdAt := [(Op_gt, fromDate); (Op_lt, toDate)] |}
                     None store = []).
  { unfold Measurement_find. induction store as [|m ms IH]; simpl; [done|]. exact IH. }
  by rewrite Hempty.
Qed.

Lemma no_matching_sensor_header_only_witness :
  (∀ b s, b ∈ [Sample.station] → s ∈ sensors b → has_title "Luftdruck" s = false)
  ∧ written (getDataMulti_export Sample.env "," ["createdAt"; "value"] "Luftdruck" 0 100
               [Sample.station] [Sample.reading 5])
    = ["createdAt,value" ++ newline].
Proof.
  assert (Hnone : ∀ b s, b ∈ [Sample.station] → s ∈ sensors b →
                         has_title "Luftdruck" s = false).
  { intros b s Hb Hs. apply list_elem_of_singleton in Hb. subst b.
    apply list_elem_of_singleton in Hs. subst s. vm_compute; reflexivity. }
  split; [exact Hnone|].
  rewrite (no_matching_sensor_header_only Sample.env "," ["createdAt"; "value"]
             "Luftdruck" 0 100 [Sample.station] [Sample.reading 5] Hnone).
  vm_compute; reflexivity.
Defined.

(** The rows that the multi-box export delivers are exactly the stored
    measurements strictly inside the window whose sensor carries the
    requested title in one of the boxes that were found. *)
Theorem exported_rows_exact (phenomenon : string) (boxData : list box)
    (sidecar : gmap string obj) (fromDate toDate : Z) (store : list measurement)
    (row : obj) :
  build_sidecar phenomenon boxData = inr sidecar →
  row ∈ getDataMulti_cursor sidecar fromDate toDate store
  ↔ ∃ m b s, row = lean_row_with_sensor m ∧ m ∈ store
             ∧ fromDate < m_createdAt m ∧ m_createdAt m < toDate
             ∧ b ∈ boxData ∧ s ∈ sensors b
             ∧ sensor_id s = m_sensor_id m ∧ has_title phenomenon s = true.
Proof.
  intros Hbuild. rewrite elem_of_getDataMulti_cursor. split.
  - intros (m & Hrow & Hin & [entry Hentry] & Hgt & Hlt).
    destruct (build_sidecar_entries _ _ _ _ _ Hbuild Hentry)
      as (b & s & Hb & Hs & Hid & Ht & _).
    by exists m, b, s.
  - intros (m & b & s & Hrow & Hin & Hgt & Hlt & Hb & Hs & Hid & Ht).
    exists m. repeat (split; [done|]). split; [|done].
    destruct (sidecar_of_boxes_keeps _ _ _ _ Hbuild) as [_ Hnew].
    rewrite <- Hid. by apply (Hnew b).
Qed.

Lemma exported_rows_exact_witness :
  build_sidecar "Temperatur" [Sample.station] = inr Sample.sidecar
  ∧ lean_row_with_sensor (Sample.reading 6)
    ∈ getDataMulti_cursor Sample.sidecar 5 50 [Sample.reading 5; Sample.reading 6].
Proof.
  assert (Hside : build_sidecar "Temperatur" [Sample.station] = inr Sample.sidecar)
    by (vm_compute; reflexivity).
  split; [exact Hside|].
  apply (exported_rows_exact "Temperatur" [Sample.station] Sample.sidecar 5 50
           [Sample.reading 5; Sample.reading 6] _ Hside).
  exists (Sample.reading 6), Sample.station, Sample.temperature.
  split; [reflexivity|]. split; [right; left|].
  split; [simpl; lia|]. split; [simpl; lia|].
  split; [by left|]. split; [by left|]. split; reflexivity.
Defined.

(** ** More on the single-sensor export *)

Section SingleSensor.

Context (E : export_env).

(** The trace of [getData] once the window is resolved and JSON is chosen. *)
Lemma getData_json req now store fromDate toDate :
  getData_window E req now = inr (fromDate, toDate) →
  getRequestedFormat E req ["json"; "csv"] "json" = Some "json" →
  let sensorId := template (params req !! "sensorId") in
  let qry := getData_qry sensorId fromDate toDate in
  let ds := List.map (fun m => <["createdAt" := VStr (toISOString E (m_createdAt m))]>
                                 (lean_row m))
              (Measurement_find qry (Some queryLimit) store) in
  getData E req now store
  = (Header "Content-Type" "application/json; charset=utf-8"
     :: (if bool_decide (params req !! "download" = Some "true")
         then [Header "Content-Disposition"
                 ("attachment; filename=" ++ sensorId ++ ".json")%string]
         else [])
     ++ MeasurementFind qry (Some queryLimit)
     :: List.map Write
          ("[" :: match ds with
                  | [] => []
                  | d :: rest =>
                      JSON_stringify E d
                      :: List.map (fun d => ("," ++ JSON_stringify E d)%string) rest
                  end ++ ["]"]))%list.
Proof.
  intros Hw Hf sensorId qry ds. unfold getData. rewrite Hw, Hf.
  cbn [String.eqb Ascii.eqb Bool.eqb orb negb app].
  pose proof (pipe_all_accepted (getData_transform E)
                (fun first d => if first then JSON_stringify E d
                                else "," ++ JSON_stringify E d)
                (fun x => Next (Error InternalServerError (MessageOf x)))
                [Write "]"] _ _ true
                (getData_rows_accepted E (Measurement_find qry (Some queryLimit) store)))
    as Hpipe.
  unfold json_stream. fold sensorId. fold qry. rewrite Hpipe. fold ds.
  rewrite List.map_cons, List.map_app. reflexivity.
Qed.

End SingleSensor.

(** The single-sensor export never delivers more than [queryLimit] (10000)
    rows: its CSV has at most one line more than that, and the rows are the
    first matches of the query in stored order, all of them when there are no
    more than the limit. *)
Theorem getData_row_cap (E : export_env) (req : request) (now : Z)
    (store : list measurement) (fromDate toDate : Z) :
  getData_window E req now = inr (fromDate, toDate) →
  getRequestedFormat E req ["json"; "csv"] "json" = Some "csv" →
  let qry := getData_qry (template (params req !! "sensorId")) fromDate toDate in
  (length (written (getData E req now store)) ≤ S queryLimit)%nat
  ∧ Measurement_find qry (Some queryLimit) store
    = take queryLimit (Measurement_find qry None store)
  ∧ ((length (Measurement_find qry None store) ≤ queryLimit)%nat →
     length (written (getData E req now store))
     = S (length (Measurement_find qry None store))).
Proof.
  intros Hw Hf qry.
  assert (Hout : written (getData E req now store)
                 = csv_header (getDelimiter E req) getData_columns
                   :: List.map (csv_record E (getDelimiter E req) getData_columns)
                        (List.map (fun m => <["createdAt" := VStr (toISOString E (m_createdAt m))]>
                                              (lean_row m))
                           (Measurement_find qry (Some queryLimit) store))).
  { rewrite (getData_csv E req now store fromDate toDate Hw Hf).
    rewrite (csv_stream_accepted E _ _ _ _ _ _ (getData_rows_accepted E _)).
    unfold written. rewrite omap_app. simpl. f_equal. apply written_Write. }
  assert (Htake : Measurement_find qry (Some queryLimit) store
                  = take queryLimit (Measurement_find qry None store)) by reflexivity.
  split; [|split; [done|]].
  - rewrite Hout. cbn [length]. rewrite !length_map, Htake, length_take. lia.
  - intros Hfew. rewrite Hout. cbn [length]. rewrite !length_map, Htake.
    by rewrite take_ge.
Qed.

Lemma getData_row_cap_witness :
  let req := Sample.request_of
               [("sensorId", "a1"); ("format", "csv"); ("from-date", "5"); ("to-date", "50")]
               None None in
  getData_window Sample.env req 100 = inr (5, 50)
  ∧ (length (written (getData Sample.env req 100 [Sample.reading 5; Sample.reading 7]))
     ≤ S queryLimit)%nat.
Proof.
  intros req.
  assert (Hw : getData_window Sample.env req 100 = inr (5, 50))
    by (vm_compute; reflexivity).
  split; [exact Hw|].
  destruct (getData_row_cap Sample.env req 100 [Sample.reading 5; Sample.reading 7]
              5 50 Hw) as [Hcap _]; [vm_compute; reflexivity | exact Hcap].
Defined.

(** The single-sensor export sets a Content-Disposition header exactly when
    the format is csv or the download parameter is the text true, and the
    header then names the file after the sensor id and the format. *)
Theorem getData_download_header (E : export_env) (req : request) (now : Z)
    (store : list measurement) (fromDate toDate : Z) (format v : string) :
  getData_window E req now = inr (fromDate, toDate) →
  getRequestedFormat E req ["json"; "csv"] "json" = Some format →
  format = "csv" ∨ format = "json" →
  Header "Content-Disposition" v ∈ getData E req now store
  ↔ (format = "csv" ∨ params req !! "download" = Some "true")
    ∧ v = "attachment; filename=" ++ template (params req !! "sensorId")
          ++ "." ++ format.
Proof.
  intros Hw Hf [-> | ->].
  - rewrite (getData_csv E req now store fromDate toDate Hw Hf).
    rewrite (csv_stream_accepted E _ _ _ _ _ _ (getData_rows_accepted E _)).
    cbn [app]. rewrite !elem_of_cons, list_elem_of_fmap. split.
    + intros [H|[H|[H|(c & H & _)]]]; try done.
      inversion H. split; [by left | done].
    + intros [_ ->]. right. by left.
  - rewrite (getData_json E req now store fromDate toDate Hw Hf).
    destruct (bool_decide (params req !! "download" = Some "true")) eqn:Hd;
      cbn [app]; rewrite !elem_of_cons, list_elem_of_fmap.
    + apply bool_decide_eq_true in Hd. split.
      * intros [H|[H|[H|(c & H & _)]]]; try done.
        inversion H. split; [by right | done].
      * intros [_ ->]. right. by left.
    + apply bool_decide_eq_false in Hd. split.
      * intros [H|[H|(c & H & _)]]; done.
      * intros [[H|H] _]; done.
Qed.

Lemma getData_download_header_witness :
  let req := Sample.request_of
               [("sensorId", "a1"); ("format", "json"); ("download", "true")] None None in
  getData_window Sample.env req 100 = inr (100 - 172800000, 100)
  ∧ Header "Content-Disposition" "attachment; filename=a1.json"
    ∈ getData Sample.env req 100 [].
Proof.
  intros req.
  assert (Hw : getData_window Sample.env req 100 = inr (100 - 172800000, 100))
    by (vm_compute; reflexivity).
  split; [exact Hw|].
  apply (getData_download_header Sample.env req 100 [] _ _ "json" _ Hw);
    [vm_compute; reflexivity | by right |].
  split; [right; vm_compute; reflexivity | vm_compute; reflexivity].
Defined.

(** The JSON written by the single-sensor export opens with a bracket, closes
    with a bracket and has one chunk per delivered row in between; with no
    matching row it is the two chunks of the empty array. *)
Theorem getData_json_brackets (E : export_env) (req : request) (now : Z)
    (store : list measurement) (fromDate toDate : Z) :
  getData_window E req now = inr (fromDate, toDate) →
  getRequestedFormat E req ["json"; "csv"] "json" = Some "json" →
  let found := Measurement_find
                 (getData_qry (template (params req !! "sensorId")) fromDate toDate)
                 (Some queryLimit) store in
  (∃ items, written (getData E req now store) = ("[" :: items ++ ["]"])%list
            ∧ length items = length found)
  ∧ (found = [] → written (getData E req now store) = ["["; "]"]).
Proof.
  intros Hw Hf found.
  pose proof (getData_json E req now store fromDate toDate Hw Hf) as Htrace.
  cbv zeta in Htrace. fold found in Htrace.
  assert (Hout : ∀ items,
            written ((Header "Content-Type" "application/json; charset=utf-8"
                      :: (if bool_decide (params req !! "download" = Some "true")
                          then [Header "Content-Disposition"
                                  ("attachment; filename="
                                   ++ template (params req !! "sensorId")
                                   ++ ".json")%string]
                          else [])
                      ++ MeasurementFind
                           (getData_qry (template (params req !! "sensorId"))
                              fromDate toDate) (Some queryLimit)
                      :: List.map Write items)%list) = items).
  { intros items. unfold written.
    destruct (bool_decide (params req !! "download" = Some "true")); simpl;
      apply written_Write. }
  rewrite Htrace, Hout. split.
  - eexists. split; [reflexivity|].
    destruct found as [|m ms]; simpl; [done|]. by rewrite !length_map.
  - intros ->. reflexivity.
Qed.

Lemma getData_json_brackets_witness :
  let req := Sample.request_of [("sensorId", "a1"); ("from-date", "5"); ("to-date", "50")]
               None None in
  getData_window Sample.env req 100 = inr (5, 50)
  ∧ written (getData Sample.env req 100 [Sample.reading 60]) = ["["; "]"].
Proof.
  intros req.
  assert (Hw : getData_window Sample.env req 100 = inr (5, 50))
    by (vm_compute; reflexivity).
  split; [exact Hw|].
  destruct (getData_json_brackets Sample.env req 100 [Sample.reading 60] 5 50 Hw)
    as [_ Hempty]; [vm_compute; reflexivity|].
  apply Hempty. vm_compute; reflexivity.
Defined.

Lemma locationless_box_fails_export_witness :
  (∃ b s, b ∈ [Sample.station; Demo.adrift] ∧ loc b = [] ∧ s ∈ sensors b
          ∧ has_title "Temperatur" s = true)
  ∧ ∃ x, getDataMulti_export Sample.env "," ["value"] "Temperatur" 0 100
           [Sample.station; Demo.adrift] [Sample.reading 5]
         = [Next (Error InternalServerError (JsonErrorsOf x))].
Proof.
  assert (Hbad : ∃ b s, b ∈ [Sample.station; Demo.adrift] ∧ loc b = [] ∧ s ∈ sensors b
                        ∧ has_title "Temperatur" s = true).
  { exists Demo.adrift, Sample.temperature.
    split; [right; left|]. split; [reflexivity|]. split; [left | reflexivity]. }
  split; [exact Hbad|].
  destruct (locationless_box_fails_export Sample.env "," ["value"] "Temperatur" 0 100
              [Sample.station; Demo.adrift] [Sample.reading 5]) as [Hfail _].
  destruct (Hfail Hbad) as (x & _ & Htrace). exists x. exact Htrace.
Defined.

(** ** More on ingestion *)

(** What the ingestion handlers save is what the decoder returned, the whole
    sequence in [postNewMeasurements] and its first element in
    [postNewMeasurement], and they save it in the box that the lookup
    returned: without a box nothing is saved. *)
Theorem ingestion_saves_what_was_decoded (I : ingest_env) (req : post_request I) :
  (∀ b ms, SaveMeasurementsArray b ms ∈ postNewMeasurements I req →
     ∃ handler,
       decodeHandlers I (toLowerCase (contentType req)) = Some handler
       ∧ handler (post_body req) = inr ms
       ∧ Box_findOne I (split slash (path req) !! 2%nat) = inr (Some b))
  ∧ (∀ b m, SaveMeasurement b m ∈ postNewMeasurement I req →
       ∃ jsonHandler ms,
         decodeHandlers I "json" = Some jsonHandler
         ∧ jsonHandler (array_of I [single_measurement req]) = inr ms
         ∧ m = head ms
         ∧ Box_findOne I (post_boxId req) = inr (Some b)).
Proof.
  assert (Hstore : ∀ found save_event save saved ev,
            ev ∈ store_measurements found save_event save saved →
            is_storage ev = true →
            ∃ b, found = inr (Some b) ∧ ev = save_event b).
  { intros found save_event save saved ev Hev Hst. unfold store_measurements in Hev.
    destruct found as [x|[b|]].
    - apply list_elem_of_singleton in Hev. by subst ev.
    - apply elem_of_cons in Hev as [->|Hev]; [by exists b|].
      destruct (save b); apply list_elem_of_singleton in Hev; by subst ev.
    - apply elem_of_cons in Hev as [->|Hev]; [done|].
      apply list_elem_of_singleton in Hev. by subst ev. }
  split.
  - intros b ms Hev. unfold postNewMeasurements in Hev.
    destruct (decodeHandlers I (toLowerCase (contentType req))) as [handler|];
      [|apply list_elem_of_singleton in Hev; done].
    destruct (handler (post_body req)) as [message|measurements] eqn:Hdec;
      [apply list_elem_of_singleton in Hev; done|].
    apply elem_of_cons in Hev as [Hev|Hev]; [done|].
    destruct (Hstore _ _ _ _ _ Hev eq_refl) as (b' & Hfound & Heq).
    inversion Heq; subst. by exists handler.
  - intros b m Hev. unfold postNewMeasurement in Hev. cbv zeta in Hev.
    destruct (decodeHandlers I "json") as [jsonHandler|];
      [|apply list_elem_of_singleton in Hev; done].
    destruct (jsonHandler (array_of I [single_measurement req]))
      as [message|measurements] eqn:Hdec;
      [apply list_elem_of_singleton in Hev; done|].
    apply elem_of_cons in Hev as [Hev|Hev]; [done|].
    destruct (Hstore _ _ _ _ _ Hev eq_refl) as (b' & Hfound & Heq).
    inversion Heq; subst. by exists jsonHandler, measurements.
Qed.

Lemma ingestion_saves_what_was_decoded_witness :
  SaveMeasurementsArray Sample.station [ <["value" := VStr "a1,21.5"]> ∅ ]
    ∈ postNewMeasurements Demo.ingest Demo.csv_post
  ∧ Box_findOne Demo.ingest (split slash (path Demo.csv_post) !! 2%nat)
    = inr (Some Sample.station).
Proof.
  assert (Hin : SaveMeasurementsArray Sample.station [ <["value" := VStr "a1,21.5"]> ∅ ]
                  ∈ postNewMeasurements Demo.ingest Demo.csv_post).
  { vm_compute. right. left. }
  split; [exact Hin|].
  destruct (ingestion_saves_what_was_decoded Demo.ingest Demo.csv_post) as [Hmany _].
  destruct (Hmany _ _ Hin) as (handler & _ & _ & Hfound). exact Hfound.
Defined.

(** The box that [postNewMeasurements] looks up is the one named in the
    path: for a request to /boxes/<id>/data whose body decodes, the first
    effect is the lookup of <id>. *)
Theorem posted_box_id_from_path (I : ingest_env) (req : post_request I)
    (id : string) handler (ms : list obj) :
  path req = "/boxes/" ++ id ++ "/data" →
  no_char slash id = true →
  decodeHandlers I (toLowerCase (contentType req)) = Some handler →
  handler (post_body req) = inr ms →
  split slash (path req) !! 2%nat = Some id
  ∧ head (postNewMeasurements I req) = Some (BoxFindOne (Some id)).
Proof.
  intros Hpath Hid Hh Hdec.
  assert (Hseg : split slash (path req) !! 2%nat = Some id).
  { rewrite Hpath.
    change ("/boxes/" ++ id ++ "/data")
      with ("" ++ String slash ("boxes" ++ String slash (id ++ String slash "data"))).
    rewrite split_app by done. rewrite split_app by done. by rewrite split_app. }
  split; [done|]. unfold postNewMeasurements. by rewrite Hh, Hdec, Hseg.
Qed.

Lemma posted_box_id_from_path_witness :
  path Demo.csv_post = "/boxes/" ++ "b1" ++ "/data"
  ∧ head (postNewMeasurements Demo.ingest Demo.csv_post) = Some (BoxFindOne (Some "b1")).
Proof.
  split; [reflexivity|].
  destruct (decodeHandlers Demo.ingest (toLowerCase (contentType Demo.csv_post)))
    as [handler|] eqn:Hh; [|vm_compute in Hh; discriminate].
  destruct (posted_box_id_from_path Demo.ingest Demo.csv_post "b1" handler
              [ <["value" := VStr "a1,21.5"]> ∅ ]) as [_ Hhead];
    [reflexivity | reflexivity | exact Hh | | exact Hhead].
  vm_compute in Hh. inversion Hh; subst handler. vm_compute; reflexivity.
Defined.

(** An ingestion handler sends the 201 answer only when the decoder returned,
    the box lookup did not reject and no save rejected; a rejected lookup or
    save ends the run with the UnprocessableEntity error instead. *)
Theorem created_only_after_success (I : ingest_env) (req : post_request I)
    (code : nat) (text : string) :
  Send code text ∈ postNewMeasurements I req →
  code = 201%nat
  ∧ ∃ handler ms found,
      decodeHandlers I (toLowerCase (contentType req)) = Some handler
      ∧ handler (post_body req) = inr ms
      ∧ Box_findOne I (split slash (path req) !! 2%nat) = inr found
      ∧ ∀ b, found = Some b → saveMeasurementsArray I b ms = None.
Proof.
  intros Hev. unfold postNewMeasurements in Hev.
  destruct (decodeHandlers I (toLowerCase (contentType req))) as [handler|];
    [|apply list_elem_of_singleton in Hev; done].
  destruct (handler (post_body req)) as [message|ms] eqn:Hdec;
    [apply list_elem_of_singleton in Hev; done|].
  apply elem_of_cons in Hev as [Hev|Hev]; [done|].
  unfold store_measurements in Hev.
  destruct (Box_findOne I (split slash (path req) !! 2%nat)) as [x|[b|]] eqn:Hfound.
  - apply list_elem_of_singleton in Hev. done.
  - apply elem_of_cons in Hev as [Hev|Hev]; [done|].
    destruct (saveMeasurementsArray I b ms) eqn:Hsave;
      apply list_elem_of_singleton in Hev; [done|].
    inversion Hev; subst. split; [done|].
    exists handler, ms, (Some b). repeat (split; [done|]).
    intros b' [= <-]. done.
  - apply elem_of_cons in Hev as [Hev|Hev]; [done|].
    apply list_elem_of_singleton in Hev. inversion Hev; subst. split; [done|].
    exists handler, ms, None. repeat (split; [done|]). done.
Qed.

Lemma created_only_after_success_witness :
  Send 201 "Measurements saved in box" ∈ postNewMeasurements Demo.ingest Demo.csv_post
  ∧ saveMeasurementsArray Demo.ingest Sample.station [ <["value" := VStr "a1,21.5"]> ∅ ]
    = None.
Proof.
  assert (Hin : Send 201 "Measurements saved in box"
                  ∈ postNewMeasurements Demo.ingest Demo.csv_post).
  { vm_compute. right. right. left. }
  split; [exact Hin|].
  destruct (created_only_after_success Demo.ingest Demo.csv_post _ _ Hin)
    as (_ & handler & ms & found & Hh & Hdec & Hfound & Hsave).
  vm_compute in Hh. inversion Hh; subst handler.
  vm_compute in Hdec. inversion Hdec; subst ms.
  vm_compute in Hfound. inversion Hfound; subst found.
  exact (Hsave _ eq_refl).
Defined.

(** ** Box management *)

Section ManageLemmas.

Import Manage.

Lemma endsWith_app (prefix s suffix : string) :
  endsWith s suffix = true → endsWith (prefix ++ s) suffix = true.
Proof.
  intros Hs. induction prefix as [|c r IH]; simpl; [done|].
  rewrite IH. apply orb_true_r.
Qed.


Lemma differs_same (v : string) : differs (VStr v) v = false.
Proof. simpl. by rewrite String.eqb_refl. Qed.



End ManageLemmas.

(** [postNewBox] and [deleteBox] answer exactly once, and they report to
    Honeybadger exactly the failures they answer with an InternalServerError:
    a validation array, a duplicate box and a missing box are not reported. *)
Theorem reported_iff_internal_error {A : Type} (created : Manage.reason + A)
    (deleted : option Manage.reason) :
  ((∃ r, Manage.Notify r ∈ Manage.postNewBox created)
   ↔ ∃ a, Manage.Refuse InternalServerError a ∈ Manage.postNewBox created)
  ∧ ((∃ r, Manage.Notify r ∈ Manage.deleteBox deleted)
     ↔ ∃ a, Manage.Refuse InternalServerError a ∈ Manage.deleteBox deleted)
  ∧ length (List.filter (fun e => match e with Manage.Notify _ => false | _ => true end)
              (Manage.postNewBox created)) = 1%nat
  ∧ length (List.filter (fun e => match e with Manage.Notify _ => false | _ => true end)
              (Manage.deleteBox deleted)) = 1%nat.
Proof.
  assert (Hone : ∀ (B : Type) (e : Manage.effect B),
            (∀ r, e ≠ Manage.Notify r) → (∀ a, e ≠ Manage.Refuse InternalServerError a) →
            ((∃ r, Manage.Notify r ∈ [e])
             ↔ ∃ a, Manage.Refuse InternalServerError a ∈ [e])).
  { intros B e H1 H2. split.
    - intros [r Hr]. apply list_elem_of_singleton in Hr. by destruct (H1 r).
    - intros [a Ha]. apply list_elem_of_singleton in Ha. by destruct (H2 a). }
  assert (Htwo : ∀ (B : Type) (err : Manage.reason) (a : Manage.argument),
            ((∃ r, Manage.Notify (A := B) r ∈ [Manage.Notify err;
                                                Manage.Refuse InternalServerError a])
             ↔ ∃ a', Manage.Refuse (A := B) InternalServerError a'
                       ∈ [Manage.Notify err; Manage.Refuse InternalServerError a])).
  { intros B err a. split; intros _.
    - exists a. right. left.
    - exists err. left. }
  split; [|split; [|split]].
  - unfold Manage.postNewBox. destruct created as [err|user]; [|by apply Hone].
    destruct err as [s|items|name message]; [|by apply Hone|];
      destruct (Manage.endsWith _ _); try apply Htwo; by apply Hone.
  - unfold Manage.deleteBox. destruct deleted as [err|]; [|by apply Hone].
    destruct (Manage.is_text err "senseBox not found"); [by apply Hone | apply Htwo].
  - unfold Manage.postNewBox. destruct created as [err|user]; [|done].
    destruct err as [s|items|name message]; [|done|];
      by destruct (Manage.endsWith _ _).
  - unfold Manage.deleteBox. destruct deleted as [err|]; [|done].
    by destruct (Manage.is_text err "senseBox not found").
Qed.

(** A duplicate box is answered with a BadRequest error whose text is the
    rejection without its first seven characters: for an Error object named
    Error that is exactly its message, while a rejection with the bare text
    loses the start of the phrase. *)
Theorem duplicate_box_message {A : Type} (message : string) :
  Manage.endsWith message "Duplicate senseBox found" = true →
  Manage.postNewBox (A := A) (inl (Manage.RError "Error" message))
  = [Manage.Refuse BadRequestError (Manage.ArgText message)]
  ∧ Manage.postNewBox (A := A) (inl (Manage.RText "Duplicate senseBox found"))
    = [Manage.Refuse BadRequestError (Manage.ArgText "te senseBox found")].
Proof.
  intros Hends. split; [|reflexivity].
  assert (Hne : String.eqb message "" = false).
  { destruct message; [done | reflexivity]. }
  unfold Manage.postNewBox.
  assert (Htext : Manage.reason_toString (Manage.RError "Error" message)
                  = "Error: " ++ message).
  { unfold Manage.reason_toString, Manage.Error_toString. simpl. by rewrite Hne. }
  rewrite Htext. rewrite (endsWith_app "Error: " message _ Hends). reflexivity.
Qed.

Lemma duplicate_box_message_witness :
  Manage.endsWith "Box b1: Duplicate senseBox found" "Duplicate senseBox found" = true
  ∧ Manage.postNewBox (A := string)
      (inl (Manage.RError "Error" "Box b1: Duplicate senseBox found"))
    = [Manage.Refuse BadRequestError (Manage.ArgText "Box b1: Duplicate senseBox found")].
Proof.
  assert (Hends : Manage.endsWith "Box b1: Duplicate senseBox found"
                    "Duplicate senseBox found" = true) by (vm_compute; reflexivity).
  split; [exact Hends|].
  exact (proj1 (duplicate_box_message (A := string) _ Hends)).
Defined.

(** The geojson listing of [findAllBoxes] never stops early: it fails exactly
    when a box has no location, and otherwise it holds one entry per box, in
    order, with the same lat and lng that [findBox] gives for that box. *)
Theorem geojson_listing_complete (E : export_env) (resultset : list box) :
  ((∃ x, Manage.findAllBoxes_geojson E resultset = inl x)
   ↔ ∃ b, b ∈ resultset ∧ loc b = [])
  ∧ (∀ listing,
       Manage.findAllBoxes_geojson E resultset = inr listing →
       Forall2 (fun b entry => entry.1 = b ∧ findBox_point E b = inr entry.2)
         resultset listing).
Proof.
  assert (Hcons : ∀ acc b rest,
            Manage.transform (Manage.geojson_iteratee E) acc (b :: rest)
            = match findBox_point E b with
              | inl x => inl x
              | inr p => Manage.transform (Manage.geojson_iteratee E)
                           (acc ++ [(b, p)])%list rest
              end).
  { intros acc b rest. simpl. unfold Manage.geojson_iteratee, findBox_point.
    by destruct (loc b). }
  assert (Hpoint : ∀ b, (∃ x, findBox_point E b = inl x) ↔ loc b = []).
  { intros b. unfold findBox_point. destruct (loc b).
    - split; [done | eauto].
    - split; [by intros [x Hx] | done]. }
  assert (Hstep : ∀ boxes acc,
            ((∃ x, Manage.transform (Manage.geojson_iteratee E) acc boxes = inl x)
             ↔ ∃ b, b ∈ boxes ∧ loc b = [])
            ∧ ∀ res, Manage.transform (Manage.geojson_iteratee E) acc boxes = inr res →
                ∃ added, res = (acc ++ added)%list
                  ∧ Forall2 (fun b entry => entry.1 = b ∧ findBox_point E b = inr entry.2)
                      boxes added).
  { induction boxes as [|b rest IH]; intros acc.
    - simpl. split.
      + split; [by intros [x Hx] | intros (b & Hb & _); by apply elem_of_nil in Hb].
      + intros res [= <-]. exists []. split; [by rewrite app_nil_r | constructor].
    - rewrite Hcons. destruct (findBox_point E b) as [x|p] eqn:Hp.
      + split; [|done]. split; [|eauto]. intros _. exists b. split; [by left|].
        apply Hpoint. eauto.
      + destruct (IH (acc ++ [(b, p)])%list) as [Hfail Hok]. split.
        * rewrite Hfail. split.
          -- intros (b' & Hb' & Hl). exists b'. split; [by right | done].
          -- intros (b' & [->|Hb']%elem_of_cons & Hl); [|eauto].
             apply Hpoint in Hl as [x Hx]. congruence.
        * intros res Hres. destruct (Hok res Hres) as (added & -> & Hall).
          exists ((b, p) :: added). split; [by rewrite <- app_assoc|].
          by constructor. }
  destruct (Hstep resultset []) as [Hfail Hok]. split; [exact Hfail|].
  intros listing Hl. destruct (Hok listing Hl) as (added & -> & Hall). exact Hall.
Qed.

Lemma geojson_listing_complete_witness :
  (∃ b, b ∈ [Sample.station; Demo.adrift] ∧ loc b = [])
  ∧ ∃ x, Manage.findAllBoxes_geojson Sample.env [Sample.station; Demo.adrift] = inl x.
Proof.
  assert (Hbad : ∃ b, b ∈ [Sample.station; Demo.adrift] ∧ loc b = []).
  { exists Demo.adrift. split; [right; left | reflexivity]. }
  split; [exact Hbad|].
  exact (proj2 (proj1 (geojson_listing_complete Sample.env [Sample.station; Demo.adrift]))
           Hbad).
Defined.

(** *** updateBox *)

Section UpdateLemmas.

Import Manage.

Context (U : update_env).



Lemma set_text_queries path p cur qrys n q :
  set_text path p cur qrys = (n, q) →
  Forall is_assignment qrys → Forall is_assignment q.
Proof.
  unfold set_text. destruct p as [v|]; [|by intros [= _ <-]].
  destruct (negb (String.eqb v "") && differs cur v); intros [= _ <-] Hq; [|done].
  apply Forall_app. split; [done|]. constructor; [|done]. left. eauto.
Qed.

Lemma update_texts_rest req d qrys :
  doc_id (update_texts req d qrys).1 = doc_id d
  ∧ doc_image (update_texts req d qrys).1 = doc_image d
  ∧ doc_loc (update_texts req d qrys).1 = doc_loc d
  ∧ doc_mqtt (update_texts req d qrys).1 = doc_mqtt d
  ∧ doc_sensors (update_texts req d qrys).1 = doc_sensors d.
Proof.
  unfold update_texts.
  destruct (set_text "name" _ _ _) as [n q1].
  destruct (set_text "exposure" _ _ _) as [e q2].
  destruct (set_text "grouptag" _ _ _) as [g q3].
  destruct (set_text "weblink" _ _ _) as [w q4].
  by destruct (set_text "description" _ _ _) as [de q5].
Qed.

Lemma update_texts_queries req d qrys :
  Forall is_assignment qrys → Forall is_assignment (update_texts req d qrys).2.
Proof.
  intros Hq. unfold update_texts.
  destruct (set_text "name" _ _ _) as [n q1] eqn:H1.
  destruct (set_text "exposure" _ _ _) as [e q2] eqn:H2.
  destruct (set_text "grouptag" _ _ _) as [g q3] eqn:H3.
  destruct (set_text "weblink" _ _ _) as [w q4] eqn:H4.
  destruct (set_text "description" _ _ _) as [de q5] eqn:H5. simpl.
  eapply set_text_queries; [exact H5|]. eapply set_text_queries; [exact H4|].
  eapply set_text_queries; [exact H3|]. eapply set_text_queries; [exact H2|].
  eapply set_text_queries; [exact H1 | exact Hq].
Qed.

Lemma update_loc_rest req d d' :
  update_loc U req d = inr d' →
  doc_sensors d' = doc_sensors d
  ∧ (u_loc req = None → doc_loc d' = doc_loc d).
Proof.
  unfold update_loc. destruct (u_loc req) as [[lng lat]|]; [|by intros [= <-]].
  destruct (doc_loc d) as [|l0 rest]; [done|].
  destruct (_ || _); by intros [= <-].
Qed.

Lemma update_loc_defined req d :
  u_loc req = None ∨ doc_loc d ≠ [] → ∃ d', update_loc U req d = inr d'.
Proof.
  unfold update_loc. intros Hok.
  destruct (u_loc req) as [[lng lat]|]; [|eauto].
  destruct (doc_loc d) as [|l0 rest]; [by destruct Hok|].
  destruct (_ || _); eauto.
Qed.

(** A numeric parameter never prints like the stored coordinate, so the
    location is replaced. *)
Lemma update_loc_numbers req d d' lng lat :
  u_loc req = Some (lng, lat) →
  is_number lng = true →
  update_loc U req d = inr d' →
  ∃ rest, doc_loc d' = {| coordinates := [lng; lat] |} :: rest.
Proof.
  unfold update_loc. intros -> Hlng.
  destruct (doc_loc d) as [|l0 rest]; [done|].
  destruct lng; try done. simpl. intros [= <-]. by exists rest.
Qed.

Lemma update_image_rest req now d qrys file d' q' :
  update_image U req now d qrys = (file, inr (inr (d', q'))) →
  doc_loc d' = doc_loc d ∧ doc_sensors d' = doc_sensors d
  ∧ (Forall is_assignment qrys → Forall is_assignment q').
Proof.
  unfold update_image. destruct (u_image req) as [data|]; [|by intros [= _ <- <-]].
  destruct (negb (String.eqb data "")); [|by intros [= _ <- <-]].
  destruct (decodeBase64Image U data) as [x|[type bytes]]; [done|].
  destruct (writeFileSync U _ bytes); [done|]. intros [= _ <- <-].
  split; [done|]. split; [done|]. intros Hq.
  apply Forall_app. split; [done|]. constructor; [|done]. left. eauto.
Qed.

Lemma update_mqtt_rest req d qrys :
  doc_loc (update_mqtt req d qrys).1 = doc_loc d
  ∧ doc_sensors (update_mqtt req d qrys).1 = doc_sensors d
  ∧ (Forall is_assignment qrys → Forall is_assignment (update_mqtt req d qrys).2).
Proof.
  assert (Hadd : ∀ o, Forall is_assignment qrys →
                      Forall is_assignment (qrys ++ [SetMqtt o])).
  { intros o Hq. apply Forall_app. split; [done|]. constructor; [|done]. right. eauto. }
  unfold update_mqtt. destruct (u_mqtt req) as [| |o]; simpl; [done | by auto |].
  destruct (get o "url"), (get o "topic"); simpl; by auto.
Qed.

(** What the loop over the sensor updates adds to the document and to the
    queries. *)
Lemma update_sensors_adds : ∀ updates ss qrys created ss' qrys' created',
  update_sensors U updates (ss, qrys, created) = inr (ss', qrys', created') →
  ∃ added ops,
    ss' = (ss ++ added)%list ∧ qrys' = (qrys ++ ops)%list
    ∧ length added
      = length (List.filter (fun su => negb (su_deleted su) && su_edited su && su_new su)
                  updates)
    ∧ (∀ su, su ∈ updates → su_deleted su = true →
             RemoveMeasurements (su_id su) ∈ ops ∧ PullSensor (su_id su) ∈ ops)
    ∧ (∀ q, q ∈ ops →
         ∃ su, su ∈ updates
           ∧ ((su_deleted su = true
               ∧ (q = RemoveMeasurements (su_id su) ∨ q = PullSensor (su_id su)))
              ∨ (su_deleted su = false ∧ su_edited su = true ∧ su_new su = false
                 ∧ q = UpdateSensor (su_id su) (su_title su) (su_unit su)
                         (su_sensorType su) (su_icon su)))).
Proof.
  induction updates as [|su rest IH]; intros ss qrys created ss' qrys' created' Hrun.
  - simpl in Hrun. inversion Hrun; subst. exists [], [].
    rewrite !app_nil_r. split; [done|]. split; [done|]. split; [done|]. split.
    + intros su Hsu. by apply elem_of_nil in Hsu.
    + intros q Hq. by apply elem_of_nil in Hq.
  - cbn [update_sensors] in Hrun. unfold update_sensor in Hrun.
    destruct (su_deleted su) eqn:Hdel.
    + destruct (valid_ObjectId U (su_id su)); [|done].
      destruct (IH _ _ _ _ _ _ Hrun) as (added & ops & -> & -> & Hlen & Hdeleted & Hops).
      exists added, ([RemoveMeasurements (su_id su); PullSensor (su_id su)] ++ ops)%list.
      split; [done|]. split; [by rewrite <- app_assoc|].
      split; [simpl; by rewrite Hdel|]. split.
      * intros su' [->|Hin]%elem_of_cons Hd.
        -- split; [left | right; left].
        -- destruct (Hdeleted su' Hin Hd). split; by do 2 right.
      * intros q [->|[->|Hq]%elem_of_cons]%elem_of_cons.
        -- exists su. split; [by left|]. left. eauto.
        -- exists su. split; [by left|]. left. eauto.
        -- destruct (Hops q Hq) as (su' & Hin & H). exists su'. split; [by right | done].
    + destruct (su_edited su) eqn:Hed; destruct (su_new su) eqn:Hnew; simpl in Hrun.
      * destruct (IH _ _ _ _ _ _ Hrun) as (added & ops & -> & -> & Hlen & Hdeleted & Hops).
        eexists (_ :: added), ops. split; [by rewrite <- app_assoc|]. split; [done|].
        split; [simpl; rewrite Hdel, Hed, Hnew; simpl; by rewrite Hlen|]. split.
        -- intros su' [->|Hin]%elem_of_cons Hd; [congruence | by apply Hdeleted].
        -- intros q Hq. destruct (Hops q Hq) as (su' & Hin & H).
           exists su'. split; [by right | done].
      * destruct (valid_ObjectId U (su_id su)); [|done].
        destruct (IH _ _ _ _ _ _ Hrun) as (added & ops & -> & -> & Hlen & Hdeleted & Hops).
        eexists added, (_ :: ops). split; [done|]. split; [by rewrite <- app_assoc|].
        split; [simpl; by rewrite Hdel, Hed, Hnew|]. split.
        -- intros su' [->|Hin]%elem_of_cons Hd; [congruence|].
           destruct (Hdeleted su' Hin Hd). split; by right.
        -- intros q [->|Hq]%elem_of_cons.
           ++ exists su. split; [by left|]. right. eauto.
           ++ destruct (Hops q Hq) as (su' & Hin & H). exists su'. split; [by right | done].
      * destruct (IH _ _ _ _ _ _ Hrun) as (added & ops & -> & -> & Hlen & Hdeleted & Hops).
        exists added, ops. split; [done|]. split; [done|].
        split; [simpl; by rewrite Hdel, Hed, Hnew|]. split.
        -- intros su' [->|Hin]%elem_of_cons Hd; [congruence | by apply Hdeleted].
        -- intros q Hq. destruct (Hops q Hq) as (su' & Hin & H).
           exists su'. split; [by right | done].
      * destruct (IH _ _ _ _ _ _ Hrun) as (added & ops & -> & -> & Hlen & Hdeleted & Hops).
        exists added, ops. split; [done|]. split; [done|].
        split; [simpl; by rewrite Hdel, Hed, Hnew|]. split.
        -- intros su' [->|Hin]%elem_of_cons Hd; [congruence | by apply Hdeleted].
        -- intros q Hq. destruct (Hops q Hq) as (su' & Hin & H).
           exists su'. split; [by right | done].
Qed.

(** The stages of a plan that reached [Promise.all]. *)
Lemma update_plan_planned req now box file d qrys :
  update_plan U req now box = (file, Planned d qrys) →
  ∃ d2 d3 q3 ss q5 created,
    update_loc U req (update_texts req box []).1 = inr d2
    ∧ update_image U req now d2 (update_texts req box []).2 = (file, inr (inr (d3, q3)))
    ∧ update_sensors U (default [] (u_sensors req))
        (doc_sensors (update_mqtt req d3 q3).1, (update_mqtt req d3 q3).2, O)
      = inr (ss, q5, created)
    ∧ d = with_sensors (update_mqtt req d3 q3).1 ss
    ∧ qrys = (q5 ++ [Save d])%list.
Proof.
  unfold update_plan.
  destruct (update_texts req box []) as [d1 q1]. simpl.
  destruct (update_loc U req d1) as [x|d2]; [done|].
  destruct (update_image U req now d2 q1) as [file' [x|[e|[d3 q3]]]] eqn:Himage;
    [done | done|].
  destruct (update_mqtt req d3 q3) as [d4 q4] eqn:Hmqtt. simpl.
  destruct (u_sensors req) as [updates|]; simpl.
  - destruct (update_sensors U updates (doc_sensors d4, q4, O)) as [x|[[ss q5] created]]
      eqn:Hsensors; [done|].
    intros H. inversion H; subst. exists d2, d3, q3, ss, q5, created.
    rewrite Hmqtt. simpl. by rewrite Hsensors.
  - intros H. inversion H; subst. exists d2, d3, q3, (doc_sensors d4), q4, O.
    by rewrite Hmqtt.
Qed.

Lemma update_plan_null_not_planned req file d qrys :
  update_plan_null U req ≠ (file, Planned d qrys).
Proof.
  unfold update_plan_null. destruct (_ || _); [done|].
  destruct (u_image req) as [data|]; [|done].
  destruct (negb (String.eqb data "")); [|done].
  destruct (decodeBase64Image U data) as [x|[type bytes]]; [done|].
  by destruct (writeFileSync U _ bytes).
Qed.

End UpdateLemmas.


(** When the image of an existing box cannot be written, [updateBox] only
    calls [next] with an InternalServerError: nothing is saved, no query is
    run, no sketch is generated and Honeybadger is not told, whatever else
    the request asked for. *)
Theorem failed_image_write_aborts (U : Manage.update_env) (req : Manage.update_request)
    (now : Z) (box : Manage.document) (data type bytes : string) (e : exn) :
  Manage.findById U (Manage.u_boxId req) = inr (Some box) →
  Manage.u_loc req = None ∨ Manage.doc_loc box ≠ [] →
  Manage.u_image req = Some data →
  data ≠ "" →
  Manage.decodeBase64Image U data = inr (type, bytes) →
  Manage.writeFileSync U
    (Manage.imageFolder U ++ Manage.u_boxId req
     ++ (if String.eqb type "image/jpeg" then ".jpg" else ".png")) bytes = Some e →
  Manage.updateBox U req now
  = [Manage.Reply (Manage.Refuse InternalServerError
                     (Manage.ArgJsonMessage (Manage.of_exn e)))].
Proof.
  intros Hfound Hloc Himage Hdata Hdecode Hwrite.
  unfold Manage.updateBox. rewrite Hfound. unfold Manage.update_plan.
  destruct (update_texts_rest req box []) as (_ & _ & Hl & _).
  destruct (Manage.update_texts req box []) as [d1 q1]. simpl in Hl.
  destruct (update_loc_defined U req d1) as [d2 Hd2]; [by rewrite Hl|].
  rewrite Hd2. unfold Manage.update_image. rewrite Himage.
  apply String.eqb_neq in Hdata. rewrite Hdata. cbn [negb].
  by rewrite Hdecode, Hwrite.
Qed.

Lemma failed_image_write_aborts_witness :
  Manage.findById Demo.read_only (Manage.u_boxId Demo.with_picture)
    = inr (Some Demo.document)
  ∧ Manage.writeFileSync Demo.read_only "/img/b1.png" "data" = Some (Rejected "EROFS")
  ∧ Manage.updateBox Demo.read_only Demo.with_picture 0
    = [Manage.Reply (Manage.Refuse InternalServerError
                       (Manage.ArgJsonMessage (Manage.RError "Error" "EROFS")))].
Proof.
  split; [reflexivity|]. split; [reflexivity|].
  apply (failed_image_write_aborts Demo.read_only Demo.with_picture 0 Demo.document
           "data" "image/png" "data" (Rejected "EROFS"));
    first [reflexivity | by left | discriminate].
Defined.

(** The queries of an update that reached [Promise.all]: [box.save()] is the
    last one; every sensor flagged deleted has its measurements removed and
    is pulled from the box, whatever its other flags; a sensor is updated in
    storage only if it is flagged edited and neither deleted nor new; and the
    saved document keeps every sensor it had, those flagged deleted
    included, followed by one new sensor per update flagged edited and new
    and not deleted. *)
Theorem planned_update_queries (U : Manage.update_env) (req : Manage.update_request)
    (now : Z) (box d : Manage.document) (file : option (string * string))
    (qrys : list Manage.query) :
  Manage.update_plan U req now box = (file, Manage.Planned d qrys) →
  let updates := default [] (Manage.u_sensors req) in
  last qrys = Some (Manage.Save d)
  ∧ (∀ su, su ∈ updates → Manage.su_deleted su = true →
       Manage.RemoveMeasurements (Manage.su_id su) ∈ qrys
       ∧ Manage.PullSensor (Manage.su_id su) ∈ qrys)
  ∧ (∀ id, Manage.RemoveMeasurements id ∈ qrys ∨ Manage.PullSensor id ∈ qrys →
       ∃ su, su ∈ updates ∧ Manage.su_id su = id ∧ Manage.su_deleted su = true)
  ∧ (∀ id title unit type icon,
       Manage.UpdateSensor id title unit type icon ∈ qrys →
       ∃ su, su ∈ updates ∧ Manage.su_id su = id
         ∧ Manage.su_deleted su = false ∧ Manage.su_edited su = true
         ∧ Manage.su_new su = false
         ∧ title = Manage.su_title su ∧ unit = Manage.su_unit su
         ∧ type = Manage.su_sensorType su ∧ icon = Manage.su_icon su)
  ∧ ∃ added,
      Manage.doc_sensors d = (Manage.doc_sensors box ++ added)%list
      ∧ length added
        = length (List.filter
                    (fun su => negb (Manage.su_deleted su) && Manage.su_edited su
                               && Manage.su_new su) updates).
Proof.
  intros Hplan updates.
  destruct (update_plan_planned U req now box file d qrys Hplan)
    as (d2 & d3 & q3 & ss & q5 & created & Hloc & Himage & Hsensors & Hd & Hq).
  destruct (update_texts_rest req box []) as (_ & _ & _ & _ & Hs1).
  destruct (update_loc_rest U req _ _ Hloc) as [Hs2 _].
  destruct (update_image_rest U req now _ _ _ _ _ Himage) as (_ & Hs3 & Ha3).
  destruct (update_mqtt_rest req d3 q3) as (_ & Hs4 & Ha4).
  assert (Hassign : Forall Manage.is_assignment (Manage.update_mqtt req d3 q3).2).
  { apply Ha4, Ha3. by apply update_texts_queries. }
  destruct (update_sensors_adds U _ _ _ _ _ _ _ Hsensors)
    as (added & ops & Hss & Hq5 & Hlen & Hdeleted & Hops).
  assert (Hin : ∀ q, q ∈ qrys →
            q ∈ (Manage.update_mqtt req d3 q3).2 ∨ q ∈ ops ∨ q = Manage.Save d).
  { intros q. rewrite Hq, Hq5, !elem_of_app, list_elem_of_singleton. tauto. }
  assert (Hnot : ∀ q, q ∈ (Manage.update_mqtt req d3 q3).2 → Manage.is_assignment q).
  { intros q. by apply Forall_forall. }
  split; [rewrite Hq; apply last_snoc|]. split; [|split; [|split]].
  - intros su Hsu Hd'. destruct (Hdeleted su Hsu Hd') as [Hr Hp].
    rewrite Hq, Hq5, !elem_of_app. tauto.
  - intros id Hid.
    assert (Hop : Manage.RemoveMeasurements id ∈ ops ∨ Manage.PullSensor id ∈ ops).
    { destruct Hid as [Hid|Hid]; apply Hin in Hid as [Hid|[Hid|Hid]]; try done;
        try (apply Hnot in Hid as [(? & ? & ?)|(? & ?)]; done); tauto. }
    destruct Hop as [Hop|Hop]; apply Hops in Hop as (su & Hsu & [[Hd' Hk]|H]).
    + exists su. destruct Hk as [Hk|Hk]; inversion Hk. by subst.
    + by destruct H as (_ & _ & _ & ?).
    + exists su. destruct Hk as [Hk|Hk]; inversion Hk. by subst.
    + by destruct H as (_ & _ & _ & ?).
  - intros id title unit type icon Hup. apply Hin in Hup as [Hup|[Hup|Hup]].
    + apply Hnot in Hup as [(? & ? & ?)|(? & ?)]; done.
    + apply Hops in Hup as (su & Hsu & [[_ [Hk|Hk]]|(Hd' & He & Hn & Hk)]); try done.
      inversion Hk; subst. by exists su.
    + done.
  - exists added. split; [|done].
    rewrite Hd. simpl. by rewrite Hss, Hs4, Hs3, Hs2, Hs1.
Qed.

Lemma planned_update_queries_witness :
  (∃ file d qrys, Manage.update_plan Demo.writable Demo.with_picture 0 Demo.document
                  = (file, Manage.Planned d qrys)
                  ∧ last qrys = Some (Manage.Save d)
                  ∧ Manage.doc_sensors d = [Sample.temperature]).
Proof.
  destruct (Manage.update_plan Demo.writable Demo.with_picture 0 Demo.document)
    as [file [x|x|d qrys]] eqn:Hplan;
    [vm_compute in Hplan; discriminate | vm_compute in Hplan; discriminate |].
  exists file, d, qrys. split; [reflexivity|].
  destruct (planned_update_queries Demo.writable Demo.with_picture 0 Demo.document d
              file qrys Hplan) as (Hlast & _ & _ & _ & added & Hsensors & Hlen).
  split; [exact Hlast|].
  destruct added as [|s added]; [|simpl in Hlen; discriminate].
  rewrite Hsensors. reflexivity.
Defined.

(** After an update with numeric loc.lng and loc.lat, the document that is
    saved has the coordinates [lng, lat]: the geojson view of [findBox]
    returns the submitted lat and lng, and a Sidecar Entry of the multi-box
    export made from that document reports them the other way round. *)
Theorem moved_box_coordinates (U : Manage.update_env) (E : export_env)
    (req : Manage.update_request) (now : Z) (box d : Manage.document)
    (file : option (string * string)) (qrys : list Manage.query) (lng lat : value) :
  Manage.update_plan U req now box = (file, Manage.Planned d qrys) →
  Manage.u_loc req = Some (lng, lat) →
  is_number lng = true →
  is_number lat = true →
  findBox_point E (Manage.lean_box d) = inr {| lat := lat; lng := lng |}
  ∧ ∀ s entry, sidecar_entry (Manage.lean_box d) s = inr entry →
               get entry "lat" = lng ∧ get entry "lng" = lat.
Proof.
  intros Hplan Hreq Hlng Hlat.
  destruct (update_plan_planned U req now box file d qrys Hplan)
    as (d2 & d3 & q3 & ss & q5 & created & Hloc & Himage & Hsensors & Hd & Hq).
  destruct (update_loc_numbers U req _ _ lng lat Hreq Hlng Hloc) as [rest Hl2].
  destruct (update_image_rest U req now _ _ _ _ _ Himage) as (Hl3 & _ & _).
  destruct (update_mqtt_rest req d3 q3) as (Hl4 & _ & _).
  assert (Hl : loc (Manage.lean_box d) = {| coordinates := [lng; lat] |} :: rest).
  { rewrite Hd. simpl. by rewrite Hl4, Hl3, Hl2. }
  split.
  - unfold findBox_point. rewrite Hl. simpl.
    destruct lng, lat; try done.
  - intros s entry Hentry.
    destruct (sidecar_entry_coordinates _ _ _ Hentry) as (l0 & Hhead & Hlat' & Hlng').
    rewrite Hl in Hhead. simpl in Hhead. inversion Hhead; subst l0. done.
Qed.

Lemma moved_box_coordinates_witness :
  ∃ file d qrys,
    Manage.update_plan Demo.writable Demo.move 0 Demo.document
    = (file, Manage.Planned d qrys)
    ∧ findBox_point Sample.env (Manage.lean_box d)
      = inr {| lat := VNum (52 # 1); lng := VNum (8 # 1) |}.
Proof.
  destruct (Manage.update_plan Demo.writable Demo.move 0 Demo.document)
    as [file [x|x|d qrys]] eqn:Hplan;
    [vm_compute in Hplan; discriminate | vm_compute in Hplan; discriminate |].
  exists file, d, qrys. split; [reflexivity|].
  exact (proj1 (moved_box_coordinates Demo.writable Sample.env Demo.move 0 Demo.document
                  d file qrys (VNum (8 # 1)) (VNum (52 # 1)) Hplan eq_refl eq_refl eq_refl)).
Defined.

(** [updateBox] runs its queries all or none: a query is run only for a box
    that was found and only when the whole request was processed without an
    exception, and then [box.save()] is run as well; the answer 200 is sent
    only after the queries settled, together with the sketch. *)
Theorem queries_run_only_when_planned (U : Manage.update_env)
    (req : Manage.update_request) (now : Z) :
  (∀ q, Manage.Run q ∈ Manage.updateBox U req now →
     ∃ box file d qrys,
       Manage.findById U (Manage.u_boxId req) = inr (Some box)
       ∧ Manage.update_plan U req now box = (file, Manage.Planned d qrys)
       ∧ q ∈ qrys
       ∧ Manage.Run (Manage.Save d) ∈ Manage.updateBox U req now)
  ∧ (∀ code d, Manage.Reply (Manage.Answer code d) ∈ Manage.updateBox U req now →
       code = 200%nat
       ∧ Manage.GenerateSketch d ∈ Manage.updateBox U req now
       ∧ ∃ box file qrys,
           Manage.findById U (Manage.u_boxId req) = inr (Some box)
           ∧ Manage.update_plan U req now box = (file, Manage.Planned d qrys)
           ∧ Manage.settle U qrys = None).
Proof.
  assert (Hshape : ∀ ev, ev ∈ Manage.updateBox U req now →
            (∃ f c, ev = Manage.WriteFile f c)
            ∨ (∃ r, ev = Manage.Reply (Manage.Notify r))
            ∨ (∃ k a, ev = Manage.Reply (Manage.Refuse k a))
            ∨ ∃ box file d qrys,
                Manage.findById U (Manage.u_boxId req) = inr (Some box)
                ∧ Manage.update_plan U req now box = (file, Manage.Planned d qrys)
                ∧ Manage.updateBox U req now
                  = (match file with
                     | Some (name, data) => [Manage.WriteFile name data]
                     | None => []
                     end
                     ++ List.map Manage.Run qrys
                     ++ match Manage.settle U qrys with
                        | Some err => Manage.caught err
                        | None => [Manage.GenerateSketch d;
                                   Manage.Reply (Manage.Answer 200 d)]
                        end)%list).
  { intros ev Hev. unfold Manage.updateBox in *.
    assert (Hcaught : ∀ err, ev ∈ Manage.caught err →
              (∃ r, ev = Manage.Reply (Manage.Notify r))
              ∨ (∃ k a, ev = Manage.Reply (Manage.Refuse k a))).
    { intros err [->|[->|H]%elem_of_cons]%elem_of_cons; [eauto | eauto|].
      by apply elem_of_nil in H. }
    destruct (Manage.findById U (Manage.u_boxId req)) as [err|[box|]] eqn:Hfound.
    - destruct (Hcaught err Hev); tauto.
    - destruct (Manage.update_plan U req now box) as [file p] eqn:Hplan.
      destruct p as [x|e|d qrys].
      + apply elem_of_app in Hev as [Hev|Hev].
        * left. destruct file as [[name data]|]; [|by apply elem_of_nil in Hev].
          apply list_elem_of_singleton in Hev. eauto.
        * destruct (Hcaught _ Hev); tauto.
      + apply elem_of_app in Hev as [Hev|Hev].
        * left. destruct file as [[name data]|]; [|by apply elem_of_nil in Hev].
          apply list_elem_of_singleton in Hev. eauto.
        * apply list_elem_of_singleton in Hev. right. right. left. eauto.
      + do 3 right. by exists box, file, d, qrys.
    - destruct (Manage.update_plan_null U req) as [file p] eqn:Hplan.
      destruct p as [x|e|d qrys].
      + apply elem_of_app in Hev as [Hev|Hev].
        * left. destruct file as [[name data]|]; [|by apply elem_of_nil in Hev].
          apply list_elem_of_singleton in Hev. eauto.
        * destruct (Hcaught _ Hev); tauto.
      + apply elem_of_app in Hev as [Hev|Hev].
        * left. destruct file as [[name data]|]; [|by apply elem_of_nil in Hev].
          apply list_elem_of_singleton in Hev. eauto.
        * apply list_elem_of_singleton in Hev. right. right. left. eauto.
      + by destruct (update_plan_null_not_planned U req file d qrys). }
  assert (Hfile : ∀ (file : option (string * string)) ev,
            ev ∈ match file with
                 | Some (name, data) => [Manage.WriteFile name data]
                 | None => []
                 end → ∃ f c, ev = Manage.WriteFile f c).
  { intros [[name data]|] ev Hev; [|by apply elem_of_nil in Hev].
    apply list_elem_of_singleton in Hev. eauto. }
  split.
  - intros q Hq.
    destruct (Hshape _ Hq) as [(f & c & H)|[(r & H)|[(k & a & H)|H]]]; try done.
    destruct H as (box & file & d & qrys & Hfound & Hplan & Htrace).
    exists box, file, d, qrys. split; [done|]. split; [done|].
    assert (Hsave : Manage.Save d ∈ qrys).
    { destruct (update_plan_planned U req now box file d qrys Hplan)
        as (_ & _ & _ & _ & q5 & _ & _ & _ & _ & _ & ->).
      apply elem_of_app. right. by left. }
    rewrite Htrace in *. split.
    + apply elem_of_app in Hq as [Hq|Hq].
      { by destruct (Hfile _ _ Hq) as (f & c & ?). }
      apply elem_of_app in Hq as [Hq|Hq].
      * apply list_elem_of_fmap in Hq as (q' & [= ->] & Hq'). done.
      * destruct (Manage.settle U qrys).
        -- apply elem_of_cons in Hq as [Hq|Hq]; [done|].
           apply list_elem_of_singleton in Hq. done.
        -- apply elem_of_cons in Hq as [Hq|Hq]; [done|].
           apply list_elem_of_singleton in Hq. done.
    + apply elem_of_app. right. apply elem_of_app. left.
      apply list_elem_of_fmap. by exists (Manage.Save d).
  - intros code d Hans.
    destruct (Hshape _ Hans) as [(f & c & H)|[(r & H)|[(k & a & H)|H]]]; try done.
    destruct H as (box & file & d' & qrys & Hfound & Hplan & Htrace).
    rewrite Htrace in *.
    apply elem_of_app in Hans as [Hans|Hans].
    { by destruct (Hfile _ _ Hans) as (f & c & ?). }
    apply elem_of_app in Hans as [Hans|Hans].
    { apply list_elem_of_fmap in Hans as (q' & ? & _). done. }
    destruct (Manage.settle U qrys) eqn:Hsettle.
    + apply elem_of_cons in Hans as [Hans|Hans]; [done|].
      apply list_elem_of_singleton in Hans. done.
    + apply elem_of_cons in Hans as [Hans|Hans]; [done|].
      apply list_elem_of_singleton in Hans. inversion Hans; subst.
      split; [done|]. split.
      * apply elem_of_app. right. apply elem_of_app. right. by left.
      * by exists box, file, qrys.
Qed.

Lemma queries_run_only_when_planned_witness :
  Manage.Run (Manage.PullSensor "a1")
    ∈ Manage.updateBox Demo.writable Demo.with_picture 0
  ∧ ∃ d, Manage.Run (Manage.Save d) ∈ Manage.updateBox Demo.writable Demo.with_picture 0.
Proof.
  assert (Hin : Manage.Run (Manage.PullSensor "a1")
                  ∈ Manage.updateBox Demo.writable Demo.with_picture 0).
  { vm_compute. do 4 right. left. }
  split; [exact Hin|].
  destruct (queries_run_only_when_planned Demo.writable Demo.with_picture 0) as [Hrun _].
  destruct (Hrun _ Hin) as (box & file & d & qrys & _ & _ & _ & Hsave).
  exists d. exact Hsave.
Defined.


Lemma reported_iff_internal_error_witness :
  (∃ a, Manage.Refuse InternalServerError a
          ∈ Manage.deleteBox (Some (Manage.RError "Error" "senseBox not found")))
  ∧ ∃ r, Manage.Notify r
           ∈ Manage.deleteBox (Some (Manage.RError "Error" "senseBox not found")).
Proof.
  assert (Hrefused : ∃ a, Manage.Refuse InternalServerError a
                     ∈ Manage.deleteBox (Some (Manage.RError "Error" "senseBox not found"))).
  { eexists. vm_compute. right. left. }
  split; [exact Hrefused|].
  destruct (reported_iff_internal_error (A := string) (inr "user")
              (Some (Manage.RError "Error" "senseBox not found"))) as (_ & Hdel & _).
  exact (proj2 Hdel Hrefused).
Defined.
